(** * MBCC server: a shallow embedding of [packages/server/src/index.ts]

    The development follows the layout of the source file: the JavaScript
    primitives the server relies on, the data model, the module-level state
    ([moodEntries], [rateLimitStore], [sentimentPipeline]), the middlewares,
    the routes of [createApp], and finally the properties of the
    specification, stated over these definitions.

    Conventions.
    - A JavaScript string is a [string]: a sequence of code units, here
      restricted to the code units below 256.
    - [Date.now()] is an integer number of milliseconds, a [Z].
    - A JavaScript number that the server reads as an integer
      ([parseInt], counters, lengths) is a [Z], with [NaN] kept apart; the
      collaborator's confidence score is an exact rational ([Q]), so the
      rounding error of binary floating point is not part of the model.
    - Arrays are mutable objects: they live in a store indexed by
      references, so that [reverse], [push] and [splice] update the array
      they are called on while [slice] allocates a new one. *)

From Stdlib Require Import ZArith QArith Qround Qfield Lqa String Ascii Lia.
From stdpp Require Import gmap strings list fin_maps.

Local Open Scope Z_scope.

(** ** JavaScript primitives *)

Module JS.

(** *** Strings *)

(** White space and line terminators removed by [String.prototype.trim]
    and skipped by [parseInt], among the code units below 256:
    TAB, LF, VT, FF, CR, SP and NBSP. *)
Definition isWhiteSpace (c : ascii) : bool :=
  let n := N_of_ascii c in
  ((9 <=? n) && (n <=? 13) || (n =? 32) || (n =? 160))%N.

Fixpoint trimStart (s : string) : string :=
  match s with
  | EmptyString => EmptyString
  | String c s' => if isWhiteSpace c then trimStart s' else s
  end.

Definition trimEnd (s : string) : string :=
  String.rev (trimStart (String.rev s)).

(** [s.trim()] *)
Definition trim (s : string) : string := trimEnd (trimStart s).

(** [s.length] *)
Definition strlen (s : string) : Z := Z.of_nat (String.length s).

(** One code unit of [s.toLowerCase()]: A-Z, and the upper-case letters
    of the Latin-1 block (U+00C0 to U+00DE, U+00D7 excepted). *)
Definition lowerChar (c : ascii) : ascii :=
  let n := N_of_ascii c in
  if ((65 <=? n) && (n <=? 90))%N then ascii_of_N (n + 32)
  else if ((192 <=? n) && (n <=? 222) && negb (n =? 215))%N
       then ascii_of_N (n + 32)
       else c.

Fixpoint toLowerCase (s : string) : string :=
  match s with
  | EmptyString => EmptyString
  | String c s' => String (lowerChar c) (toLowerCase s')
  end.

(** [s.includes(sub)] *)
Fixpoint includes (s sub : string) : bool :=
  String.prefix sub s ||
  match s with
  | EmptyString => false
  | String _ s' => includes s' sub
  end.

(** *** Numbers read as integers *)

Inductive number : Type :=
| NaN : number
| Num : Z -> number.

(** Value of a code unit as a digit (0-9, a-z, A-Z), if it is one. *)
Definition digitValue (c : ascii) : option Z :=
  let n := Z.of_N (N_of_ascii c) in
  if (48 <=? n) && (n <=? 57) then Some (n - 48)
  else if (97 <=? n) && (n <=? 122) then Some (n - 87)
  else if (65 <=? n) && (n <=? 90) then Some (n - 55)
  else None.

(** The longest prefix of radix-[R] digits of [s], read as an integer;
    [acc] is [None] as long as no digit has been read. *)
Fixpoint parseDigits (R : Z) (s : string) (acc : option Z) : option Z :=
  match s with
  | EmptyString => acc
  | String c s' =>
      match digitValue c with
      | Some d =>
          if d <? R
          then parseDigits R s' (Some (default 0 acc * R + d))
          else acc
      | None => acc
      end
  end.

(** [parseInt(s)] with no radix argument: leading white space is
    skipped, then an optional sign, then an optional [0x]/[0X] prefix
    (radix 16, otherwise radix 10), then the longest prefix of digits;
    [NaN] when there is no digit.  The result is the mathematical value
    of the digits; the source's double equals it up to 2^53. *)
Definition parseIntString (s : string) : number :=
  let s1 := trimStart s in
  let '(sign, s2) :=
    match s1 with
    | String "-" r => (-1, r)
    | String "+" r => (1, r)
    | _ => (1, s1)
    end in
  let '(R, s3) :=
    match s2 with
    | String "0" (String "x" r) => (16, r)
    | String "0" (String "X" r) => (16, r)
    | _ => (10, s2)
    end in
  match parseDigits R s3 None with
  | None => NaN
  | Some m => Num (sign * m)
  end.

(** [parseInt(v as string)] for a query parameter: an absent parameter
    is [undefined], which [parseInt] reads as the string ["undefined"]. *)
Definition parseInt (v : option string) : number :=
  match v with
  | Some s => parseIntString s
  | None => parseIntString "undefined"
  end.

(** [n || d] on numbers: [NaN] and zero are falsy. *)
Definition orDefault (n : number) (d : Z) : Z :=
  match n with
  | NaN => d
  | Num 0 => d
  | Num z => z
  end.

(** *** Arrays as values *)

(** Relative index of [Array.prototype.slice] and [splice]: a negative
    index counts from the end, and the result is clamped to [0, len]. *)
Definition relIndex (len k : Z) : Z :=
  if k <? 0 then Z.max (len + k) 0 else Z.min k len.

(** The elements selected by [a.slice(start, end)]. *)
Definition sliceOf {A} (l : list A) (start end_ : Z) : list A :=
  let len := Z.of_nat (length l) in
  let k := relIndex len start in
  let final := relIndex len end_ in
  take (Z.to_nat (final - k)) (drop (Z.to_nat k) l).

(** What is left of the array after [a.splice(start, deleteCount)]. *)
Definition spliceOf {A} (l : list A) (start deleteCount : Z) : list A :=
  let len := Z.of_nat (length l) in
  let k := relIndex len start in
  let dc := Z.min (Z.max deleteCount 0) (len - k) in
  take (Z.to_nat k) l ++ drop (Z.to_nat (k + dc)) l.

(** [Math.round(x)]: the nearest integer, a tie going up. *)
Definition Math_round (x : Q) : Z := Qfloor (x + (1 # 2)).

End JS.

(** ** Data model (the interfaces at the top of the source) *)

(** The two values of the [sentiment] field. *)
Inductive Label : Type := Positive | Negative.

Record SentimentResponse : Type := mkSentimentResponse {
  sr_sentiment : Label;
  sr_confidence : Q;
  sr_text : string
}.

(** [id] is [mood_${Date.now()}_${random}]: the time and the random
    suffix are kept as a pair.  [timestamp] is the time whose ISO form the
    source stores. *)
Record MoodEntry : Type := mkMoodEntry {
  me_id : Z * string;
  me_text : string;
  me_sentiment : Label;
  me_confidence : Q;
  me_timestamp : Z
}.

Inductive Method : Type := GET | HEAD | POST | PUT | DELETE | PATCH | OPTIONS.

(** The [message] of an error body: a literal or the message of an
    [Error], or one of the two template literals of the source. *)
Inductive Message : Type :=
| Text (s : string)
| TooManyRequests (max window : Z)
| RouteNotFound (m : Method) (url : string).

Record ErrorResponse : Type := mkErrorResponse {
  er_error : string;
  er_message : Message;
  er_timestamp : Z
}.

(** A value found in a JSON body. *)
Inductive JSValue : Type :=
| JUndefined
| JNull
| JBool (b : bool)
| JNumber (n : Q)
| JString (s : string)
| JObject.

(** [!v] *)
Definition falsy (v : JSValue) : bool :=
  match v with
  | JUndefined | JNull => true
  | JBool b => negb b
  | JNumber n => Qeq_bool n 0
  | JString s => String.eqb s ""
  | JObject => false
  end.

(** [typeof v !== 'string'] *)
Definition notString (v : JSValue) : bool :=
  match v with
  | JString _ => false
  | _ => true
  end.

(** The parts of a request the server reads; a query parameter is given
    once at most, and the body has been parsed. *)
Record Request : Type := mkRequest {
  method : Method;
  path : string;              (* req.path, the query string removed *)
  ip : option string;         (* req.ip *)
  query_limit : option string;  (* req.query.limit *)
  query_offset : option string; (* req.query.offset *)
  body_text : JSValue         (* req.body.text *)
}.

(** What [res.json] or [res.sendStatus] is given. *)
Inductive Body : Type :=
| HealthBody (ready : bool) (timestamp : Z)
| SentimentBody (r : SentimentResponse)
| MoodBody (e : MoodEntry)
| PageBody (moods : list MoodEntry) (total limit offset : Z)
| ErrorBody (e : ErrorResponse)
| StatusText.

Record Response : Type := mkResponse {
  statusCode : Z;
  body : Body
}.

(** *** The inference collaborator *)

(** One element of the array the pipeline resolves to. *)
Record Classification : Type := mkClassification {
  label : string;
  score : Q
}.

(** A settled promise. *)
Inductive Settled (A : Type) : Type :=
| Resolved (a : A)
| Rejected (reason : string).
Arguments Resolved {A} a.
Arguments Rejected {A} reason.

(** The function [pipeline(...)] resolves to: called on a text, it
    resolves to an array of classifications or rejects. *)
Definition Pipeline : Type := string -> Settled (list Classification).

(** *** Configuration and environment *)

(** The two fields of [config] the middlewares read, as integers. *)
Record Config : Type := mkConfig {
  rateLimitWindow : Z;
  rateLimitMax : Z
}.

(** What one request reads from outside the process: the clock, the
    random suffix of an id, and how [pipeline(...)] settles if it is
    called. *)
Record Env : Type := mkEnv {
  now : Z;
  random : string;
  pipelineLoad : Settled Pipeline
}.

(** ** Module-level state *)

Record RateRecord : Type := mkRateRecord {
  count : Z;
  resetTime : Z
}.

(** References to arrays. *)
Definition ref : Type := positive.

Record State : Type := mkState {
  arrays : gmap ref (list MoodEntry);       (* the arrays in memory *)
  rateLimitStore : gmap string RateRecord;
  sentimentPipeline : option Pipeline       (* null until initialized *)
}.

(** [const moodEntries: MoodEntry[] = []]: the binding never changes, the
    array it refers to does. *)
Definition moodEntries : ref := 1%positive.

Definition initialState : State :=
  {| arrays := {[ moodEntries := [] ]};
     rateLimitStore := ∅;
     sentimentPipeline := None |}.

(** The contents of the array at [r]. *)
Definition deref (s : State) (r : ref) : list MoodEntry :=
  default [] (arrays s !! r).

(** The ledger: the contents of [moodEntries]. *)
Definition ledger (s : State) : list MoodEntry := deref s moodEntries.

Definition setArrays (s : State) (a : gmap ref (list MoodEntry)) : State :=
  {| arrays := a;
     rateLimitStore := rateLimitStore s;
     sentimentPipeline := sentimentPipeline s |}.

Definition setRateLimitStore (s : State) (m : gmap string RateRecord) : State :=
  {| arrays := arrays s;
     rateLimitStore := m;
     sentimentPipeline := sentimentPipeline s |}.

Definition setSentimentPipeline (s : State) (p : option Pipeline) : State :=
  {| arrays := arrays s;
     rateLimitStore := rateLimitStore s;
     sentimentPipeline := p |}.

(** *** Array methods, on the store *)

(** [a.slice(start, end)]: a new array. *)
Definition Array_slice (a : ref) (start end_ : Z) (s : State) : State * ref :=
  let r := fresh (dom (arrays s)) in
  (setArrays s (<[ r := JS.sliceOf (deref s a) start end_ ]> (arrays s)), r).

(** [a.slice()]: a copy of the whole array. *)
Definition Array_copy (a : ref) (s : State) : State * ref :=
  Array_slice a 0 (Z.of_nat (length (deref s a))) s.

(** [a.reverse()]: reverses [a] in place and returns [a] itself. *)
Definition Array_reverse (a : ref) (s : State) : State * ref :=
  (setArrays s (<[ a := rev (deref s a) ]> (arrays s)), a).

(** [a.push(x)] *)
Definition Array_push (a : ref) (x : MoodEntry) (s : State) : State :=
  setArrays s (<[ a := deref s a ++ [x] ]> (arrays s)).

(** [a.splice(start, deleteCount)] *)
Definition Array_splice (a : ref) (start deleteCount : Z) (s : State) : State :=
  setArrays s (<[ a := JS.spliceOf (deref s a) start deleteCount ]> (arrays s)).

(** [a.length] *)
Definition Array_length (a : ref) (s : State) : Z :=
  Z.of_nat (length (deref s a)).

(** ** Exceptions and state: the monad of the handlers *)

(** [new Error(message)] *)
Record Error : Type := mkError { message : string }.

Inductive Outcome (A : Type) : Type :=
| Return (a : A)
| Throw (e : Error).
Arguments Return {A} a.
Arguments Throw {A} e.

(** A computation that reads and updates the module-level state and
    either returns or throws. *)
Definition M (A : Type) : Type := State -> State * Outcome A.

Definition ret {A} (a : A) : M A := fun s => (s, Return a).

Definition throw {A} (e : Error) : M A := fun s => (s, Throw e).

Definition bind {A B} (m : M A) (k : A -> M B) : M B :=
  fun s =>
    match m s with
    | (s', Return a) => k a s'
    | (s', Throw e) => (s', Throw e)
    end.

(** [try { m } catch (error) { h error }] *)
Definition tryCatch {A} (m : M A) (h : Error -> M A) : M A :=
  fun s =>
    match m s with
    | (s', Return a) => (s', Return a)
    | (s', Throw e) => h e s'
    end.

Definition get : M State := fun s => (s, Return s).

Definition modify (f : State -> State) : M unit := fun s => (f s, Return tt).

Notation "'let*' x ':=' m 'in' k" := (bind m (fun x => k))
  (at level 10, x name, m at level 100, k at level 200).
Notation "m ';;' k" := (bind m (fun _ => k))
  (at level 100, k at level 200, right associativity).

(** ** The sentiment service *)

(** [initializeSentimentPipeline]: calls [pipeline(...)] and stores what
    it resolves to; on rejection throws the error of the source. *)
Definition initializeSentimentPipeline (load : Settled Pipeline) : M unit :=
  match load with
  | Resolved p => modify (fun s => setSentimentPipeline s (Some p))
  | Rejected _ => throw (mkError "Sentiment analysis service unavailable")
  end.

(** [await sentimentPipeline(text)]: calling [null] is a [TypeError]; a
    rejection is thrown at the [await]. *)
Definition callPipeline (text : string) : M (list Classification) :=
  let* s := get in
  match sentimentPipeline s with
  | None => throw (mkError "sentimentPipeline is not a function")
  | Some p =>
      match p text with
      | Resolved result => ret result
      | Rejected reason => throw (mkError reason)
      end
  end.

(** [result[0]] followed by the reads of [.label] and [.score]: on an
    empty array [result[0]] is [undefined] and reading [.label] is a
    [TypeError]. *)
Definition first (result : list Classification) : M Classification :=
  match result with
  | sentiment :: _ => ret sentiment
  | [] => throw (mkError "Cannot read properties of undefined")
  end.

(** [sentiment.label.toLowerCase() === 'positive' ? 'positive' : 'negative'] *)
Definition normalizedSentiment (sentiment : Classification) : Label :=
  if String.eqb (JS.toLowerCase (label sentiment)) "positive"
  then Positive else Negative.

(** [Math.round(sentiment.score * 100) / 100] *)
Definition roundedConfidence (sentiment : Classification) : Q :=
  (inject_Z (JS.Math_round (score sentiment * 100)) / 100)%Q.

(** The body of the [try] block of [analyzeSentiment]. *)
Definition classify (text : string) : M SentimentResponse :=
  let* result := callPipeline text in
  let* sentiment := first result in
  ret {| sr_sentiment := normalizedSentiment sentiment;
         sr_confidence := roundedConfidence sentiment;
         sr_text := JS.trim text |}.

(** The [try]/[catch] statement of [analyzeSentiment]. *)
Definition tryClassify (text : string) : M SentimentResponse :=
  tryCatch (classify text)
           (fun _ => throw (mkError "Failed to analyze sentiment")).

(** [analyzeSentiment], run without interruption: [pipelineLoad env] is
    how the call of [pipeline(...)] settles, if there is one. *)
Definition analyzeSentiment (env : Env) (text : string) : M SentimentResponse :=
  (let* s := get in
   match sentimentPipeline s with
   | None => initializeSentimentPipeline (pipelineLoad env)
   | Some _ => ret tt
   end) ;;
  tryClassify text.

(** ** Middlewares *)

(** A middleware either ends the request with a response or calls
    [next()]. *)
Inductive Step : Type :=
| Respond (r : Response)
| Next.

Definition errorBody (error : string) (msg : Message) (env : Env) : Body :=
  ErrorBody {| er_error := error; er_message := msg; er_timestamp := now env |}.

(** [validateSentimentInput] *)
Definition validateSentimentInput (env : Env) (req : Request) : Step :=
  let text := body_text req in
  if falsy text || notString text then
    Respond {| statusCode := 400;
               body := errorBody "Validation Error"
                 (Text "Text field is required and must be a string") env |}
  else
    match text with
    | JString text =>
        if JS.strlen (JS.trim text) =? 0 then
          Respond {| statusCode := 400;
                     body := errorBody "Validation Error"
                       (Text "Text cannot be empty") env |}
        else if JS.strlen text >? 1000 then
          Respond {| statusCode := 400;
                     body := errorBody "Validation Error"
                       (Text "Text must be less than 1000 characters") env |}
        else Next
    | _ => Next (* not reached: [text] is a string here *)
    end.

(** [corsMiddleware]: the headers are not modelled; a preflight request
    ends here. *)
Definition corsMiddleware (req : Request) : Step :=
  match method req with
  | OPTIONS => Respond {| statusCode := 200; body := StatusText |}
  | _ => Next
  end.

(** [req.ip || 'unknown'] *)
Definition clientIdOf (req : Request) : string :=
  match ip req with
  | Some a => if String.eqb a "" then "unknown" else a
  | None => "unknown"
  end.

(** The loop "Clean up old entries": every entry whose [resetTime] is
    before [now] is deleted. *)
Definition cleanUp (now : Z) (store : gmap string RateRecord)
  : gmap string RateRecord :=
  filter (fun kv => ¬ (resetTime kv.2 < now)) store.

(** [rateLimitMiddleware] *)
Definition rateLimitMiddleware (config : Config) (env : Env) (req : Request)
    (s : State) : State * Step :=
  let clientId := clientIdOf req in
  let now := now env in
  let store := cleanUp now (rateLimitStore s) in
  let fresh_ := {| count := 1; resetTime := now + rateLimitWindow config |} in
  match store !! clientId with
  | None => (setRateLimitStore s (<[ clientId := fresh_ ]> store), Next)
  | Some clientData =>
      if resetTime clientData <? now then
        (setRateLimitStore s (<[ clientId := fresh_ ]> store), Next)
      else if count clientData >=? rateLimitMax config then
        (setRateLimitStore s store,
         Respond {| statusCode := 429;
                    body := errorBody "Rate Limit Exceeded"
                      (TooManyRequests (rateLimitMax config)
                                       (rateLimitWindow config)) env |})
      else
        (setRateLimitStore s
           (<[ clientId := {| count := count clientData + 1;
                              resetTime := resetTime clientData |} ]> store),
         Next)
  end.

(** [errorHandler]; [res.headersSent] is false, the route handlers call
    [next(error)] before they send anything. *)
Definition errorHandler (err : Error) (env : Env) : Response :=
  let statusCode :=
    if JS.includes (message err) "Validation" then 400
    else if JS.includes (message err) "unavailable" then 503
    else 500 in
  {| statusCode := statusCode;
     body := ErrorBody
       {| er_error := if statusCode =? 500 then "Internal Server Error"
                      else message err;
          er_message := Text (if statusCode =? 500
                              then "An unexpected error occurred"
                              else message err);
          er_timestamp := now env |} |}.

(** ** The routes of [createApp] *)

(** Express matches a route path without regard to case and with an
    optional trailing slash. *)
Definition routeMatches (pattern p : string) : bool :=
  let q := JS.toLowerCase p in
  String.eqb q pattern || String.eqb q (pattern ++ "/").

(** [app.get] also serves [HEAD]. *)
Definition isGet (m : Method) : bool :=
  match m with
  | GET | HEAD => true
  | _ => false
  end.

Definition isPost (m : Method) : bool :=
  match m with
  | POST => true
  | _ => false
  end.

(** [req.body.text] once validated. *)
Definition textOf (req : Request) : string :=
  match body_text req with
  | JString text => text
  | _ => ""
  end.

(** How an async route handler ends: its [try] block sent the response,
    or its [catch] block passed the error to [errorHandler]. *)
Definition runHandler (env : Env) (h : M Response) (s : State)
  : State * Response :=
  match h s with
  | (s', Return r) => (s', r)
  | (s', Throw error) => (s', errorHandler error env)
  end.

(** [GET /api/health] *)
Definition getHealth (env : Env) (s : State) : State * Response :=
  (s, {| statusCode := 200;
         body := HealthBody (bool_decide (is_Some (sentimentPipeline s)))
                            (now env) |}).

(** [POST /api/sentiment], after validation *)
Definition postSentiment (env : Env) (req : Request) : M Response :=
  let text := textOf req in
  let* result := analyzeSentiment env text in
  ret {| statusCode := 200; body := SentimentBody result |}.

(** The cap of the ledger. *)
Definition maxEntries : Z := 1000.

(** [moodEntries.push(moodEntry)] followed by the [splice] that keeps the
    last 1000 entries. *)
Definition store (moodEntry : MoodEntry) (s : State) : State :=
  let s1 := Array_push moodEntries moodEntry s in
  if Array_length moodEntries s1 >? maxEntries
  then Array_splice moodEntries 0 (Array_length moodEntries s1 - maxEntries) s1
  else s1.

(** [POST /api/moods], after validation *)
Definition postMoods (env : Env) (req : Request) : M Response :=
  let text := textOf req in
  let* sentimentResult := analyzeSentiment env text in
  let moodEntry :=
    {| me_id := (now env, random env);
       me_text := sr_text sentimentResult;
       me_sentiment := sr_sentiment sentimentResult;
       me_confidence := sr_confidence sentimentResult;
       me_timestamp := now env |} in
  modify (store moodEntry) ;;
  ret {| statusCode := 201; body := MoodBody moodEntry |}.

(** [GET /api/moods] *)
Definition getMoods (req : Request) (s : State) : State * Response :=
  let limit := JS.orDefault (JS.parseInt (query_limit req)) 50 in
  let offset := JS.orDefault (JS.parseInt (query_offset req)) 0 in
  let '(s1, copy) := Array_copy moodEntries s in
  let '(s2, reversed) := Array_reverse copy s1 in
  let '(s3, paginatedEntries) := Array_slice reversed offset (offset + limit) s2 in
  (s3, {| statusCode := 200;
          body := PageBody (deref s3 paginatedEntries)
                           (Array_length moodEntries s3) limit offset |}).

(** The 404 handler; [req.originalUrl] is given as the path. *)
Definition notFound (env : Env) (req : Request) : Response :=
  {| statusCode := 404;
     body := errorBody "Not Found" (RouteNotFound (method req) (path req)) env |}.

(** The routes, in the order [createApp] registers them. *)
Definition routes (env : Env) (req : Request) (s : State) : State * Response :=
  if isGet (method req) && routeMatches "/api/health" (path req) then
    getHealth env s
  else if isPost (method req) && routeMatches "/api/sentiment" (path req) then
    match validateSentimentInput env req with
    | Respond r => (s, r)
    | Next => runHandler env (postSentiment env req) s
    end
  else if isPost (method req) && routeMatches "/api/moods" (path req) then
    match validateSentimentInput env req with
    | Respond r => (s, r)
    | Next => runHandler env (postMoods env req) s
    end
  else if isGet (method req) && routeMatches "/api/moods" (path req) then
    getMoods req s
  else
    (s, notFound env req).

(** The application: the middleware stack of [createApp] and then the
    routes.  The security headers, the body parsers and [requestLogger]
    always call [next()] and touch none of the state below. *)
Definition app (config : Config) (env : Env) (req : Request) (s : State)
  : State * Response :=
  match corsMiddleware req with
  | Respond r => (s, r)
  | Next =>
      match rateLimitMiddleware config env req s with
      | (s1, Respond r) => (s1, r)
      | (s1, Next) => routes env req s1
      end
  end.

(** A run of the server on a sequence of requests, one handled after the
    other; the responses come out in the order of the requests. *)
Fixpoint serve (config : Config) (reqs : list (Env * Request)) (s : State)
  : State * list Response :=
  match reqs with
  | [] => (s, [])
  | (env, req) :: rest =>
      let '(s1, r) := app config env req s in
      let '(s2, rs) := serve config rest s1 in
      (s2, r :: rs)
  end.

(** ** Calls of [analyzeSentiment] in flight together

    An async function runs until its next [await] and is resumed by the
    event loop when the awaited promise has settled; other calls run in
    between.  The world below keeps, next to the module-level state, the
    calls of [analyzeSentiment] in flight and the number of calls of
    [pipeline(...)] made so far.

    [analyzeSentiment] has two suspension points: the [await] of
    [initializeSentimentPipeline()], itself suspended at the [await] of
    [pipeline(...)], and the [await] of [sentimentPipeline(text)].  After
    the second one the function reads nothing but the result and [text],
    so the call of the pipeline and what follows it are one step here. *)

Module EventLoop.

(** Where a call of [analyzeSentiment(text)] stands. *)
Inductive Task : Type :=
| AwaitingInit (k : nat) (text : string)
    (* suspended at [await initializeSentimentPipeline()], itself
       suspended at the [k]-th call of [pipeline(...)] *)
| InitReturned (text : string)
    (* [initializeSentimentPipeline] has returned; the rest of
       [analyzeSentiment] waits for its turn *)
| Finished (o : Outcome SentimentResponse).

Record World : Type := mkWorld {
  state : State;
  loads : nat;          (* calls of [pipeline(...)] so far *)
  tasks : list Task     (* the calls of [analyzeSentiment], oldest first *)
}.

Inductive Event : Type :=
| Call (text : string)
    (* [analyzeSentiment(text)] is called *)
| LoadSettles (k : nat) (r : Settled Pipeline)
    (* the promise of the [k]-th call of [pipeline(...)] settles *)
| Resume (i : nat).
    (* the [i]-th call of [analyzeSentiment] gets its turn *)

(** Runs a piece of [analyzeSentiment] to its end. *)
Definition finish (m : M SentimentResponse) (s : State) : State * Task :=
  let '(s', o) := m s in (s', Finished o).

(** The continuation of [initializeSentimentPipeline] in the task that
    awaits the [k]-th load. *)
Definition settle (k : nat) (r : Settled Pipeline) (s : State) (t : Task)
  : State * Task :=
  match t with
  | AwaitingInit k' text =>
      if Nat.eqb k k' then
        match initializeSentimentPipeline r s with
        | (s', Return _) => (s', InitReturned text)
        | (s', Throw e) => (s', Finished (Throw e))
        end
      else (s, t)
  | _ => (s, t)
  end.

Fixpoint settleAll (k : nat) (r : Settled Pipeline) (s : State)
    (ts : list Task) : State * list Task :=
  match ts with
  | [] => (s, [])
  | t :: ts' =>
      let '(s1, t1) := settle k r s t in
      let '(s2, ts2) := settleAll k r s1 ts' in
      (s2, t1 :: ts2)
  end.

Definition step (w : World) (e : Event) : World :=
  match e with
  | Call text =>
      match sentimentPipeline (state w) with
      | None =>
          {| state := state w;
             loads := S (loads w);
             tasks := tasks w ++ [AwaitingInit (loads w) text] |}
      | Some _ =>
          let '(s', t) := finish (tryClassify text) (state w) in
          {| state := s'; loads := loads w; tasks := tasks w ++ [t] |}
      end
  | LoadSettles k r =>
      let '(s', ts) := settleAll k r (state w) (tasks w) in
      {| state := s'; loads := loads w; tasks := ts |}
  | Resume i =>
      match tasks w !! i with
      | Some (InitReturned text) =>
          let '(s', t) := finish (tryClassify text) (state w) in
          {| state := s'; loads := loads w; tasks := <[ i := t ]> (tasks w) |}
      | _ => w
      end
  end.

Definition run (w : World) (es : list Event) : World := fold_left step es w.

(** The server before any call. *)
Definition start (s : State) : World :=
  {| state := s; loads := 0; tasks := [] |}.

End EventLoop.

(** * Vocabulary of the properties *)

(** ** Derived notions *)

(** The array [moodEntries] is allocated: true when the module is loaded
    and kept by every handler. *)
Definition allocated (s : State) : Prop := is_Some (arrays s !! moodEntries).

(** The last [n] elements of a list, in their order. *)
Definition lastN {A} (n : nat) (l : list A) : list A :=
  drop (length l - n) l.

(** The cap of the ledger as a length. *)
Definition cap : nat := Z.to_nat maxEntries.

(** The entry a response reports as created, if any. *)
Definition entryOf (r : Response) : option MoodEntry :=
  match body r with
  | MoodBody e => Some e
  | _ => None
  end.

(** The entries appended during a run, oldest first: those of the 201
    responses of [POST /api/moods]. *)
Definition created (rs : list Response) : list MoodEntry := omap entryOf rs.

(** The entry [POST /api/moods] builds from the result of the analysis. *)
Definition entryFor (env : Env) (r : SentimentResponse) : MoodEntry :=
  {| me_id := (now env, random env);
     me_text := sr_text r;
     me_sentiment := sr_sentiment r;
     me_confidence := sr_confidence r;
     me_timestamp := now env |}.

(** What [analyzeSentiment] makes of the answer of the pipeline [p]. *)
Definition classifyWith (p : Pipeline) (text : string)
  : Outcome SentimentResponse :=
  match p text with
  | Resolved (sentiment :: _) =>
      Return {| sr_sentiment := normalizedSentiment sentiment;
                sr_confidence := roundedConfidence sentiment;
                sr_text := JS.trim text |}
  | _ => Throw (mkError "Failed to analyze sentiment")
  end.

(** The handler a validated [POST] runs. *)
Definition handlerOf (env : Env) (req : Request) : M Response :=
  if routeMatches "/api/sentiment" (path req)
  then postSentiment env req else postMoods env req.

(** The request gets as far as the call of [analyzeSentiment]: it is a
    [POST] to one of the two routes, the rate limiter and the validator
    let it through. *)
Definition reachesAnalysis (config : Config) (env : Env) (req : Request)
    (s : State) : Prop :=
  isPost (method req) = true /\
  (routeMatches "/api/sentiment" (path req) = true \/
   routeMatches "/api/moods" (path req) = true) /\
  (rateLimitMiddleware config env req s).2 = Next /\
  validateSentimentInput env req = Next.

(** Initialization is attempted and fails: the pipeline is not there and
    [pipeline(...)] rejects. *)
Definition initializationFails (env : Env) (s : State) : Prop :=
  sentimentPipeline s = None /\
  exists reason, pipelineLoad env = Rejected reason.

(** The 500 response. *)
Definition internalServerError (env : Env) : Response :=
  {| statusCode := 500;
     body := errorBody "Internal Server Error"
               (Text "An unexpected error occurred") env |}.

(** The 503 response. *)
Definition serviceUnavailable (env : Env) : Response :=
  {| statusCode := 503;
     body := errorBody "Sentiment analysis service unavailable"
               (Text "Sentiment analysis service unavailable") env |}.

(** The 429 response. *)
Definition tooManyRequests (config : Config) (env : Env) : Response :=
  {| statusCode := 429;
     body := errorBody "Rate Limit Exceeded"
               (TooManyRequests (rateLimitMax config) (rateLimitWindow config))
               env |}.

(** The record that counts for a client at time [now]: the stored one,
    unless its window is over. *)
Definition liveRecord (now : Z) (store : gmap string RateRecord)
    (client : string) : option RateRecord :=
  match store !! client with
  | Some c => if resetTime c <? now then None else Some c
  | None => None
  end.

(** Successive calls of [rateLimitMiddleware] for requests of one client,
    at the times of [envs]. *)
Fixpoint admitAll (config : Config) (req : Request) (envs : list Env)
    (s : State) : State * list Step :=
  match envs with
  | [] => (s, [])
  | env :: rest =>
      let '(s1, d) := rateLimitMiddleware config env req s in
      let '(s2, ds) := admitAll config req rest s1 in
      (s2, d :: ds)
  end.

(** What the caller that awaits a load becomes when the load settles. *)
Definition afterLoad (r : Settled Pipeline) (text : string)
  : EventLoop.Task :=
  match r with
  | Resolved _ => EventLoop.InitReturned text
  | Rejected _ =>
      EventLoop.Finished
        (Throw (mkError "Sentiment analysis service unavailable"))
  end.

(** The callers of a burst of calls, the first of which makes the
    [b]-th load: the [i]-th awaits load [b + i]. *)
Definition awaiting (b : nat) (texts : list string) : list EventLoop.Task :=
  imap (fun i text => EventLoop.AwaitingInit (b + i) text) texts.

(** ** The words of the specification *)

(** "[text] is absent or not textual; trimmed length is 0; untrimmed
    length exceeds 1000 characters." *)
Definition invalidText (v : JSValue) : Prop :=
  match v with
  | JString s => JS.strlen (JS.trim s) = 0 \/ JS.strlen s > 1000
  | _ => True
  end.




(** A decimal digit. *)
Definition isDecimalDigit (c : ascii) : bool :=
  let n := N_of_ascii c in ((48 <=? n) && (n <=? 57))%N.

(** What follows the leading white space and the sign, if any. *)
Definition afterSign (s : string) : string :=
  match JS.trimStart s with
  | String "-" r => r
  | String "+" r => r
  | s1 => s1
  end.

(** A query parameter that is absent or "non-numeric": after the leading
    white space and an optional sign, what follows does not start with a
    decimal digit. *)
Definition nonNumeric (v : option string) : Prop :=
  match v with
  | None => True
  | Some s =>
      match afterSign s with
      | EmptyString => True
      | String c _ => isDecimalDigit c = false
      end
  end.

(** ** Checks by enumeration of the code units *)





(** ** Examples *)

(** A request of the client 10.0.0.1 with no parameters and no body. *)
Definition exampleRequest (m : Method) (p : string) : Request :=
  {| method := m; path := p; ip := Some "10.0.0.1"%string;
     query_limit := None; query_offset := None; body_text := JUndefined |}.

(** [GET /api/moods?limit=..&offset=..] *)
Definition listRequest (limit offset : option string) : Request :=
  {| method := GET; path := "/api/moods"; ip := Some "10.0.0.1"%string;
     query_limit := limit; query_offset := offset; body_text := JUndefined |}.

(** [POST /api/sentiment] with body [{"text": v}]. *)
Definition sentimentRequest (v : JSValue) : Request :=
  {| method := POST; path := "/api/sentiment"; ip := Some "10.0.0.1"%string;
     query_limit := None; query_offset := None; body_text := v |}.

(** [POST /api/moods] with body [{"text": text}]. *)
Definition moodRequest (text : string) : Request :=
  {| method := POST; path := "/api/moods"; ip := Some "10.0.0.1"%string;
     query_limit := None; query_offset := None; body_text := JString text |}.

(** A collaborator that finds every text positive, at 0.91. *)
Definition alwaysPositive : Pipeline :=
  fun _ => Resolved [ {| label := "POSITIVE"; score := 91 # 100 |} ].


(** The clock at [t], a collaborator that does not load. *)
Definition at_ (t : Z) : Env :=
  {| now := t; random := "x7k2p9q1z"; pipelineLoad := Rejected "offline" |}.

(** The clock at [t], a collaborator that loads. *)
Definition ready_ (t : Z) : Env :=
  {| now := t; random := "x7k2p9q1z"; pipelineLoad := Resolved alwaysPositive |}.

Definition twoPerSecond : Config :=
  {| rateLimitWindow := 1000; rateLimitMax := 2 |}.

Definition generous : Config :=
  {| rateLimitWindow := 900000; rateLimitMax := 5000 |}.

(** The entry of a "Great" submitted at time [t]. *)
Definition greatAt (t : Z) : MoodEntry :=
  {| me_id := (t, "x7k2p9q1z"%string);
     me_text := "Great";
     me_sentiment := Positive;
     me_confidence := 91 # 100;
     me_timestamp := t |}.

(** A server whose ledger holds the given entries. *)
Definition withLedger (l : list MoodEntry) : State :=
  setArrays initialState {[ moodEntries := l ]}.

(** A server whose pipeline is there. *)
Definition withPipeline (p : Pipeline) : State :=
  setSentimentPipeline initialState (Some p).

(** [n] submissions, one per millisecond from time [t]. *)
Fixpoint submissions (n : nat) (t : Z) : list (Env * Request) :=
  match n with
  | O => []
  | S n' => (ready_ t, moodRequest "Great") :: submissions n' (t + 1)
  end.

(** * Further vocabulary *)

(** Every stored record has a window that is not over at [now]. *)
Definition noneExpired (now : Z) (store : gmap string RateRecord) : Prop :=
  map_Forall (fun _ c => now <= resetTime c) store.

(** Every stored count is at least 1 and at most the ceiling (at most 1
    for a ceiling below 1). *)
Definition countsBounded (config : Config) (store : gmap string RateRecord)
  : Prop :=
  map_Forall (fun _ c => 1 <= count c <= Z.max 1 (rateLimitMax config)) store.

(** The request matches one of the four routes of [createApp]. *)
Definition matchesRoute (req : Request) : bool :=
  isGet (method req) && routeMatches "/api/health" (path req)
  || isPost (method req) && routeMatches "/api/sentiment" (path req)
  || isPost (method req) && routeMatches "/api/moods" (path req)
  || isGet (method req) && routeMatches "/api/moods" (path req).

(** The pipeline after a call of [analyzeSentiment]: the one that was
    there, or the one just loaded. *)
Definition pipelineAfter (env : Env) (s : State) : option Pipeline :=
  match sentimentPipeline s with
  | Some p => Some p
  | None =>
      match pipelineLoad env with
      | Resolved p => Some p
      | Rejected _ => None
      end
  end.


(** The entries a response of [GET /api/moods] lists. *)
Definition moodsOf (r : Response) : list MoodEntry :=
  match body r with
  | PageBody moods _ _ _ => moods
  | _ => []
  end.

(** The string [sub] occurs in [s]. *)
Definition occursIn (sub s : string) : Prop :=
  exists a b : string, s = (a ++ sub ++ b)%string.

(** A rejection by the validator with the given message. *)
Definition rejection (msg : string) (env : Env) : Step :=
  Respond {| statusCode := 400;
             body := errorBody "Validation Error" (Text msg) env |}.


(** ** Starting the server *)



(** ** Calls in flight: one task when a load settles *)

(** What becomes of a task when the [k]-th load settles with [r]. *)
Definition settleTask (k : nat) (r : Settled Pipeline)
    (t : EventLoop.Task) : EventLoop.Task :=
  match t with
  | EventLoop.AwaitingInit k' text =>
      if Nat.eqb k k' then afterLoad r text else t
  | _ => t
  end.

(** The task awaits the [k]-th load. *)
Definition awaits (k : nat) (t : EventLoop.Task) : bool :=
  match t with
  | EventLoop.AwaitingInit k' _ => Nat.eqb k k'
  | _ => false
  end.

(** ** What the ledger holds *)

(** An entry as [POST /api/moods] makes them: its text is not empty,
    has at most 1000 code units and no white space at its ends. *)
Definition wellFormedEntry (e : MoodEntry) : Prop :=
  me_text e <> ""%string /\
  JS.strlen (me_text e) <= 1000 /\
  JS.trim (me_text e) = me_text e.

(** A response of [GET /api/moods] within bounds: [total] is at most
    1000 and the page has at most [total] entries, each well formed. *)
Definition pageWithinBounds (r : Response) : Prop :=
  forall moods total limit offset,
    body r = PageBody moods total limit offset ->
    0 <= total <= 1000 /\
    Z.of_nat (length moods) <= total /\
    Forall wellFormedEntry moods.

(** A response with a created entry carries a well-formed one. *)
Definition createdWellFormed (r : Response) : Prop :=
  forall e, body r = MoodBody e -> wellFormedEntry e.

(** A string that is empty or starts with something else than white
    space. *)
Definition trimmedStart (s : string) : Prop :=
  match s with
  | EmptyString => True
  | String c _ => JS.isWhiteSpace c = false
  end.

(** * The mobile client: the helpers of the screens

    The helpers of the React Native application that do not depend on
    the rendering: the two validators, the update of the selected emojis
    and the keyword analysis used in place of the server.  A value of
    [Math.random()] is an argument. *)

Module Mobile.

(** [validateName]: the error message, or [None] for [null]. *)
Definition validateName (name : string) : option string :=
if String.eqb (JS.trim name) "" then Some "Name is required"%string
else if JS.strlen (JS.trim name) <? 2
     then Some "Name must be at least 2 characters"%string
else if JS.strlen (JS.trim name) >? 50
     then Some "Name must be less than 50 characters"%string
else None.

(** [validateMoodText] *)
Definition validateMoodText (text : string) : option string :=
if String.eqb (JS.trim text) "" then Some "Please describe your mood"%string
else if JS.strlen (JS.trim text) <? 3
     then Some "Please provide more detail about your mood"%string
else if JS.strlen (JS.trim text) >? 500
     then Some "Mood description must be less than 500 characters"%string
else None.

(** The update [handleEmojiToggle] applies to the selected emojis. *)
Definition handleEmojiToggle (emoji : string) (prev : list string)
: list string :=
if bool_decide (emoji ∈ prev)
then filter (fun e => e <> emoji) prev
else prev ++ [emoji].

Inductive SentimentLabel : Type := POSITIVE | NEGATIVE.

Record SentimentResult : Type := mkSentimentResult {
label : SentimentLabel;
score : Q;
confidence : Q
}.

Definition positiveWords : list string :=
["happy"; "good"; "great"; "awesome"; "love"; "amazing"; "wonderful"]%string.

Definition negativeWords : list string :=
["sad"; "bad"; "terrible"; "hate"; "awful"; "horrible"; "angry"]%string.

(** [words.filter(word => lowerText.includes(word)).length] *)
Definition countIn (words : list string) (lowerText : string) : nat :=
length (filter (fun word => JS.includes lowerText word = true) words).

(** The keyword analysis; [random1] and [random2] are the two values of
  [Math.random()], in the order they are drawn. *)
Definition analyzeSentiment (text : string) (random1 random2 : Q)
: SentimentResult :=
let lowerText := JS.toLowerCase text in
let positiveCount := countIn positiveWords lowerText in
let negativeCount := countIn negativeWords lowerText in
let isPositive := (negativeCount <? positiveCount)%nat in
let score := if isPositive then ((7 # 10) + random1 * (3 # 10))%Q
             else ((3 # 10) + random1 * (4 # 10))%Q in
{| label := if isPositive then POSITIVE else NEGATIVE;
   score := score;
   confidence := ((8 # 10) + random2 * (2 # 10))%Q |}.

End Mobile.

(** A mood with something in it and a long tail of spaces. *)
Fixpoint spaces (n : nat) : string :=
  match n with
  | O => ""
  | S n' => String " " (spaces n')
  end.

(** * Properties *)

(** ** The JavaScript primitives on examples *)

Example trim_ex : JS.trim "  Great  " = "Great"%string.
Proof. reflexivity. Qed.
Example parseInt_ex1 : JS.parseInt (Some "0"%string) = JS.Num 0.
Proof. reflexivity. Qed.
Example parseInt_ex2 : JS.parseInt (Some " -12px"%string) = JS.Num (-12).
Proof. reflexivity. Qed.
Example parseInt_ex3 : JS.parseInt (Some "abc"%string) = JS.NaN.
Proof. reflexivity. Qed.
Example parseInt_ex4 : JS.parseInt (Some "0x1F"%string) = JS.Num 31.
Proof. reflexivity. Qed.
Example parseInt_ex5 : JS.parseInt None = JS.NaN.
Proof. reflexivity. Qed.
Example slice_ex : JS.sliceOf [1;2;3;4;5] 0 (-2) = [1;2;3].
Proof. reflexivity. Qed.
Example lower_ex : JS.toLowerCase "POSITIVE" = "positive"%string.
Proof. reflexivity. Qed.
Example includes_ex : JS.includes "service unavailable" "unavailable" = true.
Proof. reflexivity. Qed.

(** ** The store of arrays *)

Lemma allocated_initialState : allocated initialState.
Proof. unfold allocated, initialState; simpl. rewrite lookup_singleton_eq. eauto. Qed.

Lemma fresh_ne_moodEntries (a : gmap ref (list MoodEntry)) :
  is_Some (a !! moodEntries) -> fresh (dom a) ≠ moodEntries.
Proof.
  intros Hs Heq. apply elem_of_dom in Hs.
  rewrite <- Heq in Hs. exact (is_fresh (dom a) Hs).
Qed.

Lemma deref_insert_eq s r l :
  deref (setArrays s (<[ r := l ]> (arrays s))) r = l.
Proof. unfold deref; simpl. by rewrite lookup_insert_eq. Qed.

(** [reverse] is in place: the array it is called on is the one that
    changes, and the reference returned is the same one. *)
Lemma Array_reverse_in_place a s :
  (Array_reverse a s).2 = a /\
  deref (Array_reverse a s).1 a = rev (deref s a).
Proof. split; [reflexivity | apply deref_insert_eq]. Qed.

(** [slice] allocates: the array it is called on keeps its contents. *)
Lemma Array_slice_fresh a start end_ s :
  is_Some (arrays s !! a) ->
  (Array_slice a start end_ s).2 ≠ a /\
  arrays (Array_slice a start end_ s).1 !! a = arrays s !! a /\
  deref (Array_slice a start end_ s).1 (Array_slice a start end_ s).2
    = JS.sliceOf (deref s a) start end_.
Proof.
  intros Hs. unfold Array_slice; simpl.
  assert (Hne : fresh (dom (arrays s)) ≠ a).
  { intros Heq. apply elem_of_dom in Hs. rewrite <- Heq in Hs.
    exact (is_fresh (dom (arrays s)) Hs). }
  split; [exact Hne|]. split.
  - by rewrite lookup_insert_ne.
  - unfold deref at 1; simpl. by rewrite lookup_insert_eq.
Qed.

Lemma sliceOf_all {A} (l : list A) :
  JS.sliceOf l 0 (Z.of_nat (length l)) = l.
Proof.
  unfold JS.sliceOf, JS.relIndex. simpl.
  destruct (Z.ltb_spec (Z.of_nat (length l)) 0) as [?|_]; [lia|].
  rewrite Z.min_id, Z.min_l by lia. rewrite Z.sub_0_r, Nat2Z.id.
  simpl. rewrite drop_0. apply firstn_all.
Qed.

(** What [GET /api/moods] leaves in memory and what it sends. *)
Lemma getMoods_spec req s :
  allocated s ->
  let limit := JS.orDefault (JS.parseInt (query_limit req)) 50 in
  let offset := JS.orDefault (JS.parseInt (query_offset req)) 0 in
  arrays (getMoods req s).1 !! moodEntries = arrays s !! moodEntries /\
  rateLimitStore (getMoods req s).1 = rateLimitStore s /\
  sentimentPipeline (getMoods req s).1 = sentimentPipeline s /\
  (getMoods req s).2 =
    {| statusCode := 200;
       body := PageBody (JS.sliceOf (rev (ledger s)) offset (offset + limit))
                        (Z.of_nat (length (ledger s))) limit offset |}.
Proof.
  intros Ha limit offset. unfold getMoods.
  fold limit. fold offset.
  unfold Array_copy.
  destruct (Array_slice_fresh moodEntries 0 (Z.of_nat (length (deref s moodEntries))) s Ha)
    as (Hne1 & Hk1 & Hd1).
  destruct (Array_slice moodEntries 0 (Z.of_nat (length (deref s moodEntries))) s)
    as [s1 copy] eqn:E1.
  simpl in Hne1, Hk1, Hd1.
  unfold Array_reverse.
  set (s2 := setArrays s1 (<[copy:=rev (deref s1 copy)]> (arrays s1))).
  assert (Hk2 : arrays s2 !! moodEntries = arrays s !! moodEntries).
  { unfold s2; simpl. rewrite lookup_insert_ne by done. exact Hk1. }
  assert (Hc2 : is_Some (arrays s2 !! copy)).
  { unfold s2; simpl. rewrite lookup_insert_eq. eauto. }
  assert (Hd2 : deref s2 copy = rev (ledger s)).
  { unfold s2. rewrite deref_insert_eq, Hd1. by rewrite sliceOf_all. }
  assert (Ha2 : is_Some (arrays s2 !! moodEntries)) by (rewrite Hk2; exact Ha).
  destruct (Array_slice_fresh copy offset (offset + limit) s2 Hc2) as (Hne3 & Hk3 & Hd3).
  pose proof (fresh_ne_moodEntries (arrays s2) Ha2) as Hne3'.
  destruct (Array_slice copy offset (offset + limit) s2) as [s3 page] eqn:E3.
  simpl in *.
  assert (Hs3 : s3 = setArrays s2 (<[page := JS.sliceOf (deref s2 copy) offset (offset + limit)]> (arrays s2))
                /\ page = fresh (dom (arrays s2))).
  { unfold Array_slice in E3. by inversion E3. }
  destruct Hs3 as [Hs3 Hp].
  assert (Hk : arrays s3 !! moodEntries = arrays s !! moodEntries).
  { rewrite Hs3; simpl. rewrite lookup_insert_ne; [exact Hk2|]. by rewrite Hp. }
  assert (Hs1 : rateLimitStore s1 = rateLimitStore s /\ sentimentPipeline s1 = sentimentPipeline s).
  { unfold Array_slice in E1. inversion E1; subst. by simpl. }
  repeat split.
  - exact Hk.
  - rewrite Hs3; simpl. apply Hs1.
  - rewrite Hs3; simpl. apply Hs1.
  - rewrite Hd3, Hd2. unfold Array_length, deref. rewrite Hk. reflexivity.
Qed.

(** ** The sentiment service, case by case *)

Lemma tryClassify_cases text s :
  tryClassify text s =
    (s, match sentimentPipeline s with
        | Some p => classifyWith p text
        | None => Throw (mkError "Failed to analyze sentiment")
        end).
Proof.
  unfold tryClassify, tryCatch, classify, callPipeline, bind, get, classifyWith.
  destruct (sentimentPipeline s) as [p|]; [|reflexivity].
  destruct (p text) as [[|c cs]|reason]; reflexivity.
Qed.

Lemma analyzeSentiment_cases env text s :
  analyzeSentiment env text s =
    match sentimentPipeline s with
    | Some p => (s, classifyWith p text)
    | None =>
        match pipelineLoad env with
        | Resolved p => (setSentimentPipeline s (Some p), classifyWith p text)
        | Rejected _ =>
            (s, Throw (mkError "Sentiment analysis service unavailable"))
        end
    end.
Proof.
  unfold analyzeSentiment, bind, get.
  destruct (sentimentPipeline s) as [p|] eqn:Hp.
  - unfold ret. rewrite tryClassify_cases, Hp. reflexivity.
  - unfold initializeSentimentPipeline.
    destruct (pipelineLoad env) as [p|reason]; [|reflexivity].
    unfold modify. rewrite tryClassify_cases. reflexivity.
Qed.

(** [analyzeSentiment] touches [sentimentPipeline] only. *)
Lemma analyzeSentiment_frame env text s :
  arrays (analyzeSentiment env text s).1 = arrays s /\
  rateLimitStore (analyzeSentiment env text s).1 = rateLimitStore s.
Proof.
  rewrite analyzeSentiment_cases.
  destruct (sentimentPipeline s); [done|].
  destruct (pipelineLoad env); done.
Qed.

(** ** The ledger *)

Lemma lastN_short {A} n (l : list A) : (length l <= n)%nat -> lastN n l = l.
Proof.
  intros H. unfold lastN. replace (length l - n)%nat with 0%nat by lia.
  apply drop_0.
Qed.

Lemma length_lastN {A} n (l : list A) :
  length (lastN n l) = Nat.min (length l) n.
Proof. unfold lastN. rewrite length_drop. lia. Qed.


Lemma spliceOf_front {A} (l : list A) n :
  0 <= n <= Z.of_nat (length l) ->
  JS.spliceOf l 0 n = drop (Z.to_nat n) l.
Proof.
  intros Hn. unfold JS.spliceOf, JS.relIndex. simpl.
  rewrite (Z.min_l 0) by lia. simpl.
  f_equal. lia.
Qed.

(** One append: the entry is added at the end and the ledger cut back to
    its last 1000 entries; nothing else changes. *)
Lemma store_spec e s :
  ledger (store e s) = lastN cap (ledger s ++ [e]) /\
  allocated (store e s) /\
  rateLimitStore (store e s) = rateLimitStore s /\
  sentimentPipeline (store e s) = sentimentPipeline s.
Proof.
  unfold store, Array_length, Array_splice, Array_push, allocated, ledger.
  rewrite deref_insert_eq.
  set (l := deref s moodEntries ++ [e]).
  destruct (Z.gtb_spec (Z.of_nat (length l)) maxEntries) as [Hgt|Hle].
  - rewrite deref_insert_eq. simpl.
    rewrite lookup_insert_eq. repeat split; eauto.
    rewrite spliceOf_front by (unfold maxEntries in *; lia).
    unfold lastN, cap, maxEntries in *. f_equal. lia.
  - rewrite deref_insert_eq. simpl.
    rewrite lookup_insert_eq. repeat split; eauto.
    symmetry. apply lastN_short. unfold cap, maxEntries in *. lia.
Qed.

(** ** The middlewares and the routes, case by case *)

(** A rejection by the validator is a 400 "Validation Error". *)
Lemma validateSentimentInput_respond env req r :
  validateSentimentInput env req = Respond r ->
  statusCode r = 400 /\
  exists msg, body r = errorBody "Validation Error" msg env.
Proof.
  unfold validateSentimentInput.
  destruct (falsy (body_text req) || notString (body_text req)).
  - intros [= <-]. simpl. eauto.
  - destruct (body_text req); try discriminate.
    destruct (JS.strlen (JS.trim s) =? 0); [intros [= <-]; simpl; eauto|].
    destruct (JS.strlen s >? 1000); [intros [= <-]; simpl; eauto|].
    discriminate.
Qed.

(** The rate limiter touches [rateLimitStore] only. *)
Lemma rateLimitMiddleware_frame config env req s :
  arrays (rateLimitMiddleware config env req s).1 = arrays s /\
  sentimentPipeline (rateLimitMiddleware config env req s).1
    = sentimentPipeline s.
Proof.
  unfold rateLimitMiddleware.
  destruct (cleanUp (now env) (rateLimitStore s) !! clientIdOf req) as [c|];
    [|done].
  destruct (resetTime c <? now env); [done|].
  destruct (count c >=? rateLimitMax config); done.
Qed.

(** A response of the rate limiter is a 429. *)
Lemma rateLimitMiddleware_respond config env req s r :
  (rateLimitMiddleware config env req s).2 = Respond r ->
  statusCode r = 429 /\ exists e, body r = ErrorBody e.
Proof.
  unfold rateLimitMiddleware.
  destruct (cleanUp (now env) (rateLimitStore s) !! clientIdOf req) as [c|];
    [|discriminate].
  destruct (resetTime c <? now env); [discriminate|].
  destruct (count c >=? rateLimitMax config); [|discriminate].
  simpl. intros [= <-]. simpl. eauto.
Qed.

(** [POST /api/sentiment] after validation. *)
Lemma postSentiment_cases env req s :
  runHandler env (postSentiment env req) s =
    match analyzeSentiment env (textOf req) s with
    | (s1, Return result) =>
        (s1, {| statusCode := 200; body := SentimentBody result |})
    | (s1, Throw error) => (s1, errorHandler error env)
    end.
Proof.
  unfold runHandler, postSentiment, bind, ret.
  destruct (analyzeSentiment env (textOf req) s) as [s1 [result|error]];
    reflexivity.
Qed.

(** [POST /api/moods] after validation. *)
Lemma postMoods_cases env req s :
  runHandler env (postMoods env req) s =
    match analyzeSentiment env (textOf req) s with
    | (s1, Return result) =>
        (store (entryFor env result) s1,
         {| statusCode := 201; body := MoodBody (entryFor env result) |})
    | (s1, Throw error) => (s1, errorHandler error env)
    end.
Proof.
  unfold runHandler, postMoods, bind, ret, modify.
  destruct (analyzeSentiment env (textOf req) s) as [s1 [result|error]];
    reflexivity.
Qed.

(** What a request does to the ledger: a 201 of [POST /api/moods] appends
    its entry, and no other response changes it. *)
Lemma routes_ledger env req s :
  allocated s -> (length (ledger s) <= cap)%nat ->
  let s' := (routes env req s).1 in
  let r := (routes env req s).2 in
  allocated s' /\
  ledger s' = lastN cap (ledger s ++ created [r]) /\
  rateLimitStore s' = rateLimitStore s.
Proof.
  intros Ha Hlen. unfold routes.
  assert (Hsame : forall r, entryOf r = None ->
            allocated s /\ ledger s = lastN cap (ledger s ++ created [r]) /\
            rateLimitStore s = rateLimitStore s).
  { intros r Hr. unfold created. simpl. rewrite Hr. simpl.
    rewrite app_nil_r, lastN_short by done. done. }
  destruct (isGet (method req) && routeMatches "/api/health" (path req)).
  { exact (Hsame (getHealth env s).2 eq_refl). }
  destruct (isPost (method req) && routeMatches "/api/sentiment" (path req)).
  { destruct (validateSentimentInput env req) as [r|] eqn:Hv.
    - simpl. apply Hsame.
      apply validateSentimentInput_respond in Hv as (_ & msg & Hb).
      unfold entryOf. by rewrite Hb.
    - rewrite postSentiment_cases.
      pose proof (analyzeSentiment_frame env (textOf req) s) as [Harr Hrl].
      destruct (analyzeSentiment env (textOf req) s) as [s1 [result|error]];
        simpl in *.
      + unfold allocated, ledger, deref, created. simpl. rewrite Harr, Hrl.
        by apply (Hsame {| statusCode := 200; body := SentimentBody result |}).
      + unfold allocated, ledger, deref. rewrite Harr, Hrl.
        apply (Hsame (errorHandler error env)). reflexivity. }
  destruct (isPost (method req) && routeMatches "/api/moods" (path req)).
  { destruct (validateSentimentInput env req) as [r|] eqn:Hv.
    - simpl. apply Hsame.
      apply validateSentimentInput_respond in Hv as (_ & msg & Hb).
      unfold entryOf. by rewrite Hb.
    - rewrite postMoods_cases.
      pose proof (analyzeSentiment_frame env (textOf req) s) as [Harr Hrl].
      destruct (analyzeSentiment env (textOf req) s) as [s1 [result|error]];
        simpl in *.
      + destruct (store_spec (entryFor env result) s1) as (Hl & Hal & Hr & _).
        split; [exact Hal|]. split; [|by rewrite Hr].
        rewrite Hl. unfold ledger, deref. by rewrite Harr.
      + unfold allocated, ledger, deref. rewrite Harr, Hrl.
        apply (Hsame (errorHandler error env)). reflexivity. }
  destruct (isGet (method req) && routeMatches "/api/moods" (path req)).
  { destruct (getMoods_spec req s Ha) as (Hk & Hr & _ & Hresp).
    rewrite Hresp. unfold allocated, ledger, deref. rewrite Hk, Hr.
    apply Hsame. reflexivity. }
  exact (Hsame (notFound env req) eq_refl).
Qed.

Lemma app_ledger config env req s :
  allocated s -> (length (ledger s) <= cap)%nat ->
  let s' := (app config env req s).1 in
  let r := (app config env req s).2 in
  allocated s' /\ ledger s' = lastN cap (ledger s ++ created [r]).
Proof.
  intros Ha Hlen. unfold app.
  assert (Hsame : forall r, entryOf r = None ->
            ledger s = lastN cap (ledger s ++ created [r])).
  { intros r Hr. unfold created. simpl. rewrite Hr. simpl.
    rewrite app_nil_r, lastN_short by done. done. }
  destruct (corsMiddleware req) as [r|] eqn:Hc.
  { simpl. split; [done|]. apply Hsame.
    unfold corsMiddleware in Hc. destruct (method req); try discriminate.
    by inversion Hc. }
  pose proof (rateLimitMiddleware_frame config env req s) as [Harr _].
  pose proof (rateLimitMiddleware_respond config env req s) as Hresp.
  destruct (rateLimitMiddleware config env req s) as [s1 [r|]]; simpl in *.
  - unfold allocated, ledger, deref. rewrite Harr. split; [done|].
    apply Hsame. destruct (Hresp r eq_refl) as (_ & e & Hb).
    unfold entryOf. by rewrite Hb.
  - assert (Ha1 : allocated s1) by (unfold allocated; by rewrite Harr).
    assert (Hl1 : ledger s1 = ledger s) by (unfold ledger, deref; by rewrite Harr).
    destruct (routes_ledger env req s1 Ha1) as (Ha' & Hl' & _).
    { by rewrite Hl1. }
    split; [done|]. by rewrite Hl', Hl1.
Qed.


(** ** The rate limiter *)

Lemma cleanUp_lookup now store client :
  cleanUp now store !! client = liveRecord now store client.
Proof.
  unfold cleanUp, liveRecord. rewrite map_lookup_filter.
  destruct (store !! client) as [c|]; simpl; [|reflexivity].
  destruct (Z.ltb_spec (resetTime c) now) as [Hlt|Hge].
  - rewrite option_guard_False; [reflexivity|]. intros H. by apply H.
  - rewrite option_guard_True; [reflexivity|]. lia.
Qed.

Lemma liveRecord_not_expired now store client c :
  liveRecord now store client = Some c -> (resetTime c <? now) = false.
Proof.
  unfold liveRecord. destruct (store !! client) as [c'|]; [|discriminate].
  destruct (resetTime c' <? now) eqn:E; [discriminate|]. by intros [= <-].
Qed.

(** The rate limiter in terms of the record that counts. *)
Lemma rateLimitMiddleware_cases config env req s :
  let client := clientIdOf req in
  let kept := cleanUp (now env) (rateLimitStore s) in
  rateLimitMiddleware config env req s =
    match liveRecord (now env) (rateLimitStore s) client with
    | None =>
        (setRateLimitStore s
           (<[ client := {| count := 1;
                            resetTime := now env + rateLimitWindow config |} ]>
              kept), Next)
    | Some c =>
        if count c >=? rateLimitMax config
        then (setRateLimitStore s kept, Respond (tooManyRequests config env))
        else (setRateLimitStore s
                (<[ client := {| count := count c + 1;
                                 resetTime := resetTime c |} ]> kept), Next)
    end.
Proof.
  intros client kept. unfold rateLimitMiddleware.
  fold client. fold kept. unfold kept at 1. rewrite cleanUp_lookup.
  destruct (liveRecord (now env) (rateLimitStore s) client) as [c|] eqn:Hl;
    [|reflexivity].
  rewrite (liveRecord_not_expired _ _ _ _ Hl). reflexivity.
Qed.

(** A stored record counts at any time up to its [resetTime], and no
    longer after. *)
Lemma liveRecord_lookup now store client c :
  store !! client = Some c -> now <= resetTime c ->
  liveRecord now store client = Some c.
Proof.
  intros Hs H. unfold liveRecord. rewrite Hs.
  destruct (Z.ltb_spec (resetTime c) now); [lia|reflexivity].
Qed.

Lemma liveRecord_expired now store client c :
  store !! client = Some c -> resetTime c < now ->
  liveRecord now store client = None.
Proof.
  intros Hs H. unfold liveRecord. rewrite Hs.
  destruct (Z.ltb_spec (resetTime c) now); [reflexivity|lia].
Qed.

(** A denied call leaves the record of the client as it was. *)
Lemma denied_keeps_record config env req s r :
  (rateLimitMiddleware config env req s).2 = Respond r ->
  r = tooManyRequests config env /\
  rateLimitStore (rateLimitMiddleware config env req s).1 !! clientIdOf req
    = rateLimitStore s !! clientIdOf req.
Proof.
  rewrite rateLimitMiddleware_cases.
  destruct (liveRecord _ _ _) as [c|] eqn:Hl; [|discriminate].
  destruct (count c >=? rateLimitMax config); [|discriminate].
  simpl. intros [= <-]. split; [reflexivity|].
  rewrite cleanUp_lookup, Hl.
  unfold liveRecord in Hl.
  destruct (rateLimitStore s !! clientIdOf req) as [c'|]; [|discriminate].
  destruct (resetTime c' <? now env); [discriminate|]. done.
Qed.

(** Calls inside the window while the count is below the ceiling: each
    is let through and counted. *)
Lemma admitAll_below config req envs : forall s c,
  rateLimitStore s !! clientIdOf req = Some c ->
  Forall (fun env => now env <= resetTime c) envs ->
  count c + Z.of_nat (length envs) <= rateLimitMax config ->
  (admitAll config req envs s).2 = replicate (length envs) Next /\
  rateLimitStore (admitAll config req envs s).1 !! clientIdOf req
    = Some {| count := count c + Z.of_nat (length envs);
              resetTime := resetTime c |}.
Proof.
  induction envs as [|env rest IH]; intros s c Hc Hall Hk.
  - simpl. split; [reflexivity|]. rewrite Hc. destruct c; simpl.
    by rewrite Z.add_0_r.
  - apply Forall_cons in Hall as [Hnow Hrest]. simpl in Hk.
    simpl. rewrite rateLimitMiddleware_cases.
    rewrite (liveRecord_lookup _ _ _ _ Hc Hnow).
    destruct (Z.geb_spec (count c) (rateLimitMax config)) as [Hge|Hlt]; [lia|].
    set (c1 := {| count := count c + 1; resetTime := resetTime c |}).
    set (s1 := setRateLimitStore s _).
    destruct (IH s1 c1) as [Hsteps Hfinal].
    + unfold s1. simpl. by rewrite lookup_insert_eq.
    + exact Hrest.
    + simpl. lia.
    + destruct (admitAll config req rest s1) as [s2 ds]. simpl in *.
      split; [by rewrite Hsteps|].
      rewrite Hfinal. f_equal. f_equal. lia.
Qed.

Lemma admitAll_app config req envs1 envs2 s :
  admitAll config req (envs1 ++ envs2) s =
    let '(s1, ds1) := admitAll config req envs1 s in
    let '(s2, ds2) := admitAll config req envs2 s1 in
    (s2, ds1 ++ ds2).
Proof.
  revert s. induction envs1 as [|env rest IH]; intros s; simpl.
  - by destruct (admitAll config req envs2 s).
  - destruct (rateLimitMiddleware config env req s) as [s1 d]. rewrite IH.
    destruct (admitAll config req rest s1) as [s2 ds].
    by destruct (admitAll config req envs2 s2).
Qed.

(** C5 (amended).  For a ceiling [k >= 1] and a client with no record
    that counts: of [k + 1] calls made while [now <= windowResetAt], where
    [windowResetAt] is the time of the first call plus the window, the
    first [k] are allowed and the last one is denied with 429; the denied
    call leaves the stored count at [k], as any denied call leaves the
    record of its client; and a call made once [now > windowResetAt] is
    allowed again and stores a fresh record with [count = 1] and a new
    window. *)
Theorem rate_limit_window (config : Config) (req : Request)
    (env1 : Env) (envs : list Env) (envD : Env) (s : State) :
  1 <= rateLimitMax config ->
  liveRecord (now env1) (rateLimitStore s) (clientIdOf req) = None ->
  Z.of_nat (length envs) = rateLimitMax config - 1 ->
  Forall (fun env => now env <= now env1 + rateLimitWindow config)
         (envs ++ [envD]) ->
  let out := admitAll config req (env1 :: envs ++ [envD]) s in
  out.2 = replicate (Z.to_nat (rateLimitMax config)) Next
            ++ [Respond (tooManyRequests config envD)] /\
  rateLimitStore out.1 !! clientIdOf req
    = Some {| count := rateLimitMax config;
              resetTime := now env1 + rateLimitWindow config |} /\
  (forall envN : Env,
     now env1 + rateLimitWindow config < now envN ->
     (rateLimitMiddleware config envN req out.1).2 = Next /\
     rateLimitStore (rateLimitMiddleware config envN req out.1).1
       !! clientIdOf req
       = Some {| count := 1;
                 resetTime := now envN + rateLimitWindow config |}) /\
  (forall (s0 : State) (env0 : Env) (r : Response),
     (rateLimitMiddleware config env0 req s0).2 = Respond r ->
     rateLimitStore (rateLimitMiddleware config env0 req s0).1
       !! clientIdOf req
       = rateLimitStore s0 !! clientIdOf req).
Proof.
  intros Hk Hnone Hlen Hall.
  apply Forall_app in Hall as [Hmid Hlast].
  apply Forall_inv in Hlast.
  cbv zeta. cbn [admitAll].
  rewrite rateLimitMiddleware_cases, Hnone.
  set (c1 := {| count := 1; resetTime := now env1 + rateLimitWindow config |}).
  set (s1 := setRateLimitStore s _).
  assert (Hc1 : rateLimitStore s1 !! clientIdOf req = Some c1).
  { unfold s1. simpl. by rewrite lookup_insert_eq. }
  rewrite admitAll_app.
  destruct (admitAll_below config req envs s1 c1 Hc1 Hmid) as [Hsteps Hcount].
  { simpl. lia. }
  destruct (admitAll config req envs s1) as [s2 ds]. simpl in Hsteps, Hcount.
  replace (1 + Z.of_nat (length envs)) with (rateLimitMax config) in Hcount
    by lia.
  set (ck := {| count := rateLimitMax config;
                resetTime := now env1 + rateLimitWindow config |}) in *.
  cbn [admitAll]. rewrite rateLimitMiddleware_cases.
  rewrite (liveRecord_lookup _ _ _ _ Hcount Hlast).
  destruct (Z.geb_spec (count ck) (rateLimitMax config)) as [_|Hlt];
    [|simpl in Hlt; lia].
  cbn [fst snd].
  assert (Hkept : cleanUp (now envD) (rateLimitStore s2) !! clientIdOf req
                  = Some ck).
  { rewrite cleanUp_lookup. by apply liveRecord_lookup. }
  split; [|split; [|split]].
  - rewrite Hsteps.
    replace (Z.to_nat (rateLimitMax config)) with (S (length envs)) by lia.
    reflexivity.
  - exact Hkept.
  - intros envN HN. rewrite rateLimitMiddleware_cases.
    rewrite (liveRecord_expired _ _ _ ck); [| exact Hkept | simpl; lia].
    cbn [fst snd]. split; [reflexivity|].
    simpl. by rewrite lookup_insert_eq.
  - intros s0 env0 r Hr.
    by destruct (denied_keeps_record config env0 req s0 r Hr).
Qed.

(** The window on an example: two calls allowed, the third denied at
    [now = windowResetAt], a fourth allowed one millisecond later. *)
Lemma rate_limit_window_witness :
  let config := twoPerSecond in
  let req := exampleRequest GET "/api/moods" in
  let out := admitAll config req [at_ 0; at_ 10; at_ 1000] initialState in
  out.2 = [Next; Next; Respond (tooManyRequests config (at_ 1000))] /\
  rateLimitStore out.1 !! "10.0.0.1"%string
    = Some {| count := 2; resetTime := 1000 |} /\
  (rateLimitMiddleware config (at_ 1001) req out.1).2 = Next.
Proof.
  pose proof (rate_limit_window twoPerSecond
                (exampleRequest GET "/api/moods")
                (at_ 0) [at_ 10] (at_ 1000) initialState) as H.
  destruct H as (H1 & H2 & H3 & _).
  - simpl. lia.
  - reflexivity.
  - reflexivity.
  - repeat constructor; simpl; lia.
  - destruct (H3 (at_ 1001)) as [H4 _]; [simpl; lia|].
    exact (conj H1 (conj H2 H4)).
Defined.

(** C5, as stated, fails in two places.  At [now = windowResetAt] the
    record still counts: a client at its ceiling is denied and its count
    stays where it was, where the claim has a fresh record with
    [count = 1].  With a ceiling of 0 the first call is allowed. *)
Lemma rate_limit_boundary_counterexample :
  let req := exampleRequest GET "/api/moods" in
  let s := setRateLimitStore initialState
             {[ "10.0.0.1"%string := {| count := 2; resetTime := 5000 |} ]} in
  let out := rateLimitMiddleware twoPerSecond (at_ 5000) req s in
  (now (at_ 5000) >= 5000 /\
   out.2 = Respond (tooManyRequests twoPerSecond (at_ 5000)) /\
   rateLimitStore out.1 !! "10.0.0.1"%string
     = Some {| count := 2; resetTime := 5000 |}) /\
  (rateLimitMiddleware {| rateLimitWindow := 1000; rateLimitMax := 0 |}
     (at_ 0) req initialState).2 = Next.
Proof.
  cbv zeta. split; [split; [simpl; lia | split] |]; reflexivity.
Qed.

(** ** The health check *)

(** C2 (amended).  [GET /api/health] passes through the rate limiter like
    every other route: a client whose record for the current window has
    reached the ceiling is answered 429 and not the health report;
    otherwise the health report is sent with status 200 after the rate
    limiter has counted the request (the count goes up by one, or a fresh
    record with [count = 1] is stored). *)
Theorem health_is_rate_limited (config : Config) (env : Env) (req : Request)
    (s : State) :
  isGet (method req) = true ->
  routeMatches "/api/health" (path req) = true ->
  let client := clientIdOf req in
  let out := app config env req s in
  let healthy :=
    {| statusCode := 200;
       body := HealthBody (bool_decide (is_Some (sentimentPipeline s)))
                          (now env) |} in
  (forall c, liveRecord (now env) (rateLimitStore s) client = Some c ->
             rateLimitMax config <= count c ->
             out.2 = tooManyRequests config env) /\
  (forall c, liveRecord (now env) (rateLimitStore s) client = Some c ->
             count c < rateLimitMax config ->
             out.2 = healthy /\
             rateLimitStore out.1 !! client
               = Some {| count := count c + 1; resetTime := resetTime c |}) /\
  (liveRecord (now env) (rateLimitStore s) client = None ->
   out.2 = healthy /\
   rateLimitStore out.1 !! client
     = Some {| count := 1; resetTime := now env + rateLimitWindow config |}).
Proof.
  intros Hget Hpath client out healthy. unfold out, app.
  assert (Hcors : corsMiddleware req = Next).
  { unfold corsMiddleware. destruct (method req); try reflexivity.
    discriminate. }
  rewrite Hcors, rateLimitMiddleware_cases. fold client.
  assert (Hroute : forall s1, sentimentPipeline s1 = sentimentPipeline s ->
                     routes env req s1 = (s1, healthy)).
  { intros s1 Hp. unfold routes. rewrite Hget, Hpath. simpl.
    unfold getHealth, healthy. by rewrite Hp. }
  split; [|split].
  - intros c Hc Hfull. rewrite Hc.
    destruct (Z.geb_spec (count c) (rateLimitMax config)); [|lia].
    reflexivity.
  - intros c Hc Hbelow. rewrite Hc.
    destruct (Z.geb_spec (count c) (rateLimitMax config)); [lia|].
    rewrite Hroute by reflexivity. simpl. by rewrite lookup_insert_eq.
  - intros Hnone. rewrite Hnone.
    rewrite Hroute by reflexivity. simpl. by rewrite lookup_insert_eq.
Qed.

(** A health check of a client below its ceiling is counted. *)
Lemma health_is_rate_limited_witness :
  let req := exampleRequest GET "/api/health" in
  let s := setRateLimitStore initialState
             {[ "10.0.0.1"%string := {| count := 1; resetTime := 5000 |} ]} in
  let out := app twoPerSecond (at_ 4000) req s in
  out.2 = {| statusCode := 200; body := HealthBody false 4000 |} /\
  rateLimitStore out.1 !! "10.0.0.1"%string
    = Some {| count := 2; resetTime := 5000 |}.
Proof.
  cbv zeta.
  set (s := setRateLimitStore initialState _).
  destruct (health_is_rate_limited twoPerSecond (at_ 4000)
              (exampleRequest GET "/api/health") s) as (_ & H & _).
  - reflexivity.
  - reflexivity.
  - apply (H {| count := 1; resetTime := 5000 |}).
    + reflexivity.
    + simpl. lia.
Defined.

(** C2, as stated, fails: a client at its ceiling gets 429 from
    [GET /api/health], and for a client below it the request is counted in
    [rateLimitStore]. *)
Lemma health_429_counterexample :
  let req := exampleRequest GET "/api/health" in
  let exhausted := setRateLimitStore initialState
             {[ "10.0.0.1"%string := {| count := 2; resetTime := 5000 |} ]} in
  app twoPerSecond (at_ 4000) req exhausted
    = (exhausted, tooManyRequests twoPerSecond (at_ 4000)) /\
  statusCode (app twoPerSecond (at_ 4000) req exhausted).2 = 429 /\
  rateLimitStore initialState !! "10.0.0.1"%string = None /\
  rateLimitStore (app twoPerSecond (at_ 4000) req initialState).1
    !! "10.0.0.1"%string = Some {| count := 1; resetTime := 5000 |}.
Proof.
  cbv zeta. repeat split; reflexivity.
Qed.

(** ** The ledger through the server *)

Lemma cap_eq : cap = 1000%nat.
Proof. reflexivity. Qed.


(** Appends do happen: 1002 valid submissions leave the entries of the
    last 1000, the oldest kept being the third one submitted. *)
Example ledger_after_1002_submissions :
  let s := (serve generous (submissions 1002 0) initialState).1 in
  length (created (serve generous (submissions 1002 0) initialState).2)
    = 1002%nat /\
  length (ledger s) = 1000%nat /\
  me_timestamp <$> head (ledger s) = Some 2 /\
  me_timestamp <$> last (ledger s) = Some 1001.
Proof. vm_compute. repeat split; reflexivity. Qed.

(** ** Reads and failed writes *)

(** A path matches one route path at most. *)
Lemma routeMatches_moods p :
  routeMatches "/api/moods" p = true ->
  routeMatches "/api/health" p = false /\
  routeMatches "/api/sentiment" p = false.
Proof.
  unfold routeMatches. intros H.
  apply orb_true_iff in H as [H|H]; apply String.eqb_eq in H; rewrite H;
    split; reflexivity.
Qed.

Lemma corsMiddleware_next req :
  method req <> OPTIONS -> corsMiddleware req = Next.
Proof. unfold corsMiddleware. by destruct (method req). Qed.

Lemma errorHandler_status err env :
  statusCode (errorHandler err env) = 400 \/
  statusCode (errorHandler err env) = 503 \/
  statusCode (errorHandler err env) = 500.
Proof.
  unfold errorHandler. simpl.
  destruct (JS.includes (message err) "Validation"); [by left|].
  destruct (JS.includes (message err) "unavailable"); [right; by left|].
  right; by right.
Qed.

(** C10.  [GET /api/moods] leaves the ledger as it was, entries and
    order, for every state of the server and every [limit] and [offset]:
    [reverse] is applied to the copy made by [slice()]. *)
Theorem listing_does_not_mutate (config : Config) (env : Env)
    (req : Request) (s : State) :
  allocated s ->
  ledger (getMoods req s).1 = ledger s /\
  (isGet (method req) = true ->
   routeMatches "/api/moods" (path req) = true ->
   ledger (app config env req s).1 = ledger s).
Proof.
  intros Ha. split.
  - destruct (getMoods_spec req s Ha) as (Hk & _).
    unfold ledger, deref. by rewrite Hk.
  - intros Hget Hpath. unfold app.
    rewrite corsMiddleware_next by (destruct (method req); done).
    pose proof (rateLimitMiddleware_frame config env req s) as [Harr _].
    destruct (rateLimitMiddleware config env req s) as [s1 [r|]];
      simpl in *.
    + unfold ledger, deref. by rewrite Harr.
    + destruct (routeMatches_moods _ Hpath) as [Hh Hs].
      unfold routes. rewrite Hh, Hpath, Hget.
      assert (Hp : isPost (method req) = false)
        by (destruct (method req); done).
      rewrite Hp. cbn [andb].
      assert (Ha1 : allocated s1) by (unfold allocated; by rewrite Harr).
      destruct (getMoods_spec req s1 Ha1) as (Hk & _).
      unfold ledger, deref. by rewrite Hk, Harr.
Qed.

(** C9.  [POST /api/moods] appends all or nothing: a request answered
    with anything but 201 leaves every array, the ledger among them, as it
    was; and when the sentiment analysis throws, the handler ends in
    [errorHandler] without having touched the arrays. *)
Theorem failed_submit_leaves_ledger (config : Config) (env : Env)
    (req : Request) (s : State) :
  isPost (method req) = true ->
  routeMatches "/api/moods" (path req) = true ->
  (statusCode (app config env req s).2 <> 201 ->
   arrays (app config env req s).1 = arrays s /\
   ledger (app config env req s).1 = ledger s) /\
  (forall (s1 : State) (err : Error),
     (analyzeSentiment env (textOf req) s1).2 = Throw err ->
     (runHandler env (postMoods env req) s1).2 = errorHandler err env /\
     statusCode (runHandler env (postMoods env req) s1).2 <> 201 /\
     arrays (runHandler env (postMoods env req) s1).1 = arrays s1).
Proof.
  intros Hpost Hpath. split.
  - intros Hstatus.
    assert (Harrays : arrays (app config env req s).1 = arrays s);
      [|split; [exact Harrays | unfold ledger, deref; by rewrite Harrays]].
    revert Hstatus. unfold app.
    rewrite corsMiddleware_next by (destruct (method req); done).
    pose proof (rateLimitMiddleware_frame config env req s) as [Harr _].
    destruct (rateLimitMiddleware config env req s) as [s1 [r|]];
      simpl in *; [done|].
    destruct (routeMatches_moods _ Hpath) as [Hh Hs].
    unfold routes. rewrite Hh, Hs, Hpath, Hpost.
    rewrite !andb_false_r. simpl.
    destruct (validateSentimentInput env req) as [r|]; [done|].
    rewrite postMoods_cases.
    pose proof (analyzeSentiment_frame env (textOf req) s1) as [Harr1 _].
    destruct (analyzeSentiment env (textOf req) s1) as [s2 [result|error]];
      simpl in *.
    + intros H. by destruct H.
    + intros _. by rewrite Harr1.
  - intros s1 err Hthrow. rewrite postMoods_cases.
    pose proof (analyzeSentiment_frame env (textOf req) s1) as [Harr1 _].
    destruct (analyzeSentiment env (textOf req) s1) as [s2 [result|error]];
      cbn [fst snd] in *; [discriminate|].
    injection Hthrow as ->. split; [reflexivity|]. split; [|exact Harr1].
    destruct (errorHandler_status err env) as [H|[H|H]]; rewrite H; lia.
Qed.

(** ** Validation *)

Lemma validateSentimentInput_next env req :
  validateSentimentInput env req = Next <-> ~ invalidText (body_text req).
Proof.
  unfold validateSentimentInput, invalidText.
  destruct (body_text req) as [| |b|n|text|]; simpl;
    rewrite ?orb_true_r; try (split; [discriminate | tauto]).
  - rewrite orb_false_r.
    destruct (String.eqb_spec text "") as [->|Hne].
    + split; [discriminate|]. intros H. exfalso. apply H. by left.
    + destruct (Z.eqb_spec (JS.strlen (JS.trim text)) 0) as [H0|H0].
      { split; [discriminate | tauto]. }
      destruct (Z.gtb_spec (JS.strlen text) 1000) as [Hl|Hl].
      { split; [discriminate|]. intros H. exfalso. apply H. right. lia. }
      split; [|reflexivity]. intros _ [H|H]; [done | lia].
Qed.

Lemma invalidText_dec v : invalidText v \/ ~ invalidText v.
Proof.
  unfold invalidText. destruct v; try (by left).
  destruct (Z.eq_dec (JS.strlen (JS.trim s)) 0); [left; by left|].
  destruct (Z_gt_dec (JS.strlen s) 1000); [left; by right|].
  right. tauto.
Qed.

(** ** Errors and their status *)

Lemma analyzeSentiment_throws env text s err :
  (analyzeSentiment env text s).2 = Throw err ->
  (err = mkError "Sentiment analysis service unavailable" /\
   initializationFails env s) \/
  (err = mkError "Failed to analyze sentiment" /\
   ~ initializationFails env s).
Proof.
  rewrite analyzeSentiment_cases. unfold initializationFails.
  destruct (sentimentPipeline s) as [p|] eqn:Hp.
  - simpl. unfold classifyWith.
    destruct (p text) as [[|c cs]|reason]; intros [= <-];
      right; (split; [reflexivity | by intros [? _]]).
  - destruct (pipelineLoad env) as [p|reason] eqn:Hl; simpl.
    + unfold classifyWith.
      destruct (p text) as [[|c cs]|reason]; intros [= <-];
        right; (split; [reflexivity | by intros [_ [? ?]]]).
    + intros [= <-]. left. eauto.
Qed.

Lemma errorHandler_unavailable env :
  errorHandler (mkError "Sentiment analysis service unavailable") env
    = serviceUnavailable env.
Proof. reflexivity. Qed.

Lemma errorHandler_failed env :
  errorHandler (mkError "Failed to analyze sentiment") env
    = internalServerError env.
Proof. reflexivity. Qed.

(** ** The two [POST] routes *)

Lemma routeMatches_sentiment p :
  routeMatches "/api/sentiment" p = true ->
  routeMatches "/api/health" p = false /\
  routeMatches "/api/moods" p = false.
Proof.
  unfold routeMatches. intros H.
  apply orb_true_iff in H as [H|H]; apply String.eqb_eq in H; rewrite H;
    split; reflexivity.
Qed.

(** A request that reaches the analysis gets the answer of its handler,
    run in the state the rate limiter leaves. *)
Lemma app_reaches config env req s :
  reachesAnalysis config env req s ->
  app config env req s =
    runHandler env (handlerOf env req)
               (rateLimitMiddleware config env req s).1.
Proof.
  intros (Hpost & Hpath & Hrate & Hvalid). unfold app, handlerOf.
  rewrite corsMiddleware_next by (destruct (method req); done).
  destruct (rateLimitMiddleware config env req s) as [s1 d].
  simpl in Hrate. subst d. cbn [fst]. unfold routes.
  assert (Hget : isGet (method req) = false)
    by (destruct (method req); done).
  rewrite Hget, Hpost, Hvalid. cbn [andb].
  destruct Hpath as [Hp|Hp].
  - by rewrite Hp.
  - destruct (routeMatches_moods _ Hp) as [_ Hs]. by rewrite Hs, Hp.
Qed.

(** The status of the answer of a handler. *)
Lemma runHandler_status env req s :
  let out := runHandler env (handlerOf env req) s in
  match (analyzeSentiment env (textOf req) s).2 with
  | Return _ => statusCode out.2 = 200 \/ statusCode out.2 = 201
  | Throw err =>
      (initializationFails env s /\ out.2 = serviceUnavailable env) \/
      (~ initializationFails env s /\ out.2 = internalServerError env)
  end.
Proof.
  cbv zeta. unfold handlerOf.
  pose proof (analyzeSentiment_throws env (textOf req) s) as Hthrow.
  destruct (routeMatches "/api/sentiment" (path req));
    [rewrite postSentiment_cases | rewrite postMoods_cases];
    destruct (analyzeSentiment env (textOf req) s) as [s1 [result|err]];
    cbn [fst snd] in *; try (by left); try (by right);
    destruct (Hthrow err eq_refl) as [[-> Hi]|[-> Hi]];
    [left|right|left|right]; (split; [exact Hi | reflexivity]).
Qed.

(** Whether a request reaches the analysis can be decided. *)
Lemma classic_reaches config env req s :
  reachesAnalysis config env req s \/ ~ reachesAnalysis config env req s.
Proof.
  unfold reachesAnalysis.
  destruct (isPost (method req)); [|right; by intros [? _]].
  destruct (routeMatches "/api/sentiment" (path req));
    destruct (routeMatches "/api/moods" (path req));
    destruct (rateLimitMiddleware config env req s) as [s1 [r|]];
    destruct (validateSentimentInput env req) as [r'|];
    cbn [snd];
    first [ left; by eauto
          | right; intros (_ & Hp & Hr & Hv);
            first [discriminate | by destruct Hp] ].
Qed.

Lemma getMoods_status req s : statusCode (getMoods req s).2 = 200.
Proof.
  unfold getMoods.
  destruct (Array_copy moodEntries s) as [s1 copy].
  destruct (Array_reverse copy s1) as [s2 reversed].
  by destruct (Array_slice reversed _ _ s2) as [s3 page].
Qed.


(** The answer to a [POST] the validator rejects. *)
Lemma app_rejected config env req s r :
  isPost (method req) = true ->
  routeMatches "/api/sentiment" (path req) = true \/
  routeMatches "/api/moods" (path req) = true ->
  (rateLimitMiddleware config env req s).2 = Next ->
  validateSentimentInput env req = Respond r ->
  (app config env req s).2 = r.
Proof.
  intros Hpost Hpath Hrate Hvalid. unfold app.
  rewrite corsMiddleware_next by (destruct (method req); done).
  destruct (rateLimitMiddleware config env req s) as [s1 d].
  simpl in Hrate. subst d. unfold routes.
  assert (Hget : isGet (method req) = false)
    by (destruct (method req); done).
  rewrite Hget, Hpost, Hvalid. cbn [andb].
  destruct Hpath as [Hp|Hp].
  - by rewrite Hp.
  - destruct (routeMatches_moods _ Hp) as [_ Hs]. by rewrite Hs, Hp.
Qed.

(** The status of a request that reaches the analysis. *)
Lemma app_reaching_status config env req s :
  reachesAnalysis config env req s ->
  let r := (app config env req s).2 in
  (initializationFails env s /\ r = serviceUnavailable env) \/
  (~ initializationFails env s /\
   (statusCode r = 200 \/ statusCode r = 201 \/ r = internalServerError env)).
Proof.
  intros Hreach. cbv zeta. rewrite (app_reaches _ _ _ _ Hreach).
  pose proof (rateLimitMiddleware_frame config env req s) as [_ Hp].
  set (s1 := (rateLimitMiddleware config env req s).1) in *.
  assert (Hi : initializationFails env s1 <-> initializationFails env s).
  { unfold initializationFails. by rewrite Hp. }
  pose proof (runHandler_status env req s1) as Hst. cbv zeta in Hst.
  pose proof (analyzeSentiment_cases env (textOf req) s1) as Hcases.
  destruct (analyzeSentiment env (textOf req) s1) as [s2 [result|err]];
    cbn [fst snd] in Hst.
  - right. split; [|tauto].
    intros [Hnone [reason Hrej]]. rewrite Hp, Hnone, Hrej in Hcases.
    discriminate.
  - destruct Hst as [[Hf ->]|[Hf ->]].
    + left. by rewrite <- Hi.
    + right. rewrite <- Hi. tauto.
Qed.

(** C6.  The validator of [POST /api/sentiment] and [POST /api/moods]
    answers 400 "Validation Error" if and only if the [text] field is
    absent or not a string, or its trimmed length is 0, or its length
    exceeds 1000, and lets the request through if and only if none of
    these holds; and a [POST] to either route that the rate limiter has
    let through is answered with status 400 if and only if one of them
    holds. *)
Theorem validation_rejects_exactly_invalid_text (config : Config)
    (env : Env) (req : Request) (s : State) :
  (validateSentimentInput env req = Next
     <-> ~ invalidText (body_text req)) /\
  ((exists r msg, validateSentimentInput env req = Respond r /\
                  statusCode r = 400 /\
                  body r = errorBody "Validation Error" msg env)
     <-> invalidText (body_text req)) /\
  (isPost (method req) = true ->
   routeMatches "/api/sentiment" (path req) = true \/
   routeMatches "/api/moods" (path req) = true ->
   (rateLimitMiddleware config env req s).2 = Next ->
   (statusCode (app config env req s).2 = 400
      <-> invalidText (body_text req))).
Proof.
  pose proof (validateSentimentInput_next env req) as Hnext.
  split; [exact Hnext|]. split.
  - split.
    + intros (r & msg & Hr & _).
      destruct (invalidText_dec (body_text req)) as [Hinv|Hvalid]; [done|].
      assert (Hn : validateSentimentInput env req = Next) by tauto.
      congruence.
    + intros Hinv.
      destruct (validateSentimentInput env req) as [r|] eqn:Hv.
      * destruct (validateSentimentInput_respond env req r Hv)
          as (Hs & msg & Hb). eauto.
      * tauto.
  - intros Hpost Hpath Hrate.
    destruct (invalidText_dec (body_text req)) as [Hinv|Hvalid].
    + split; [done|]. intros _.
      destruct (validateSentimentInput env req) as [r|] eqn:Hv; [|tauto].
      rewrite (app_rejected config env req s r) by done.
      by apply validateSentimentInput_respond in Hv as [-> _].
    + split; [|done]. intros H400. exfalso.
      assert (Hreach : reachesAnalysis config env req s).
      { unfold reachesAnalysis. tauto. }
      destruct (app_reaching_status config env req s Hreach)
        as [[_ Hr]|[_ [Hr|[Hr|Hr]]]]; rewrite Hr in H400; done.
Qed.


(** ** The result of the analysis *)









(** End to end: [POST /api/sentiment] with [{"text":"Great"}]. *)
Example post_sentiment_great :
  (app generous (ready_ 0)
       {| method := POST; path := "/api/sentiment";
          ip := Some "10.0.0.1"%string;
          query_limit := None; query_offset := None;
          body_text := JString "Great" |}
       initialState).2
  = {| statusCode := 200;
       body := SentimentBody {| sr_sentiment := Positive;
                                sr_confidence := 91 # 100;
                                sr_text := "Great" |} |}.
Proof. reflexivity. Qed.

(** ** Pagination *)

Lemma parseIntString_nonNumeric s :
  nonNumeric (Some s) -> JS.parseIntString s = JS.NaN.
Proof.
  unfold nonNumeric, afterSign, JS.parseIntString.
  destruct (JS.trimStart s) as [|c r]; [reflexivity|].
  assert (Hnd : forall c' r', isDecimalDigit c' = false ->
            (let '(R, s3) :=
               match String c' r' with
               | String "0" (String "x" r0) => (16, r0)
               | String "0" (String "X" r0) => (16, r0)
               | _ => (10, String c' r')
               end in JS.parseDigits R s3 None) = None).
  { intros c' r' Hc'.
    destruct c' as [[] [] [] [] [] [] [] []]; try discriminate Hc';
      reflexivity. }
  assert (Hsign : forall sign s2,
            match s2 with
            | EmptyString => True
            | String c' _ => isDecimalDigit c' = false
            end ->
            (let '(R, s3) :=
               match s2 with
               | String "0" (String "x" r0) => (16, r0)
               | String "0" (String "X" r0) => (16, r0)
               | _ => (10, s2)
               end in
             match JS.parseDigits R s3 None with
             | Some m => JS.Num (sign * m)
             | None => JS.NaN
             end) = JS.NaN).
  { intros sign [|c' r'] H; [reflexivity|].
    specialize (Hnd c' r' H).
    destruct (match String c' r' with
              | String "0" (String "x" r0) => (16, r0)
              | String "0" (String "X" r0) => (16, r0)
              | _ => (10, String c' r')
              end) as [R s3].
    by rewrite Hnd. }
  destruct c as [[] [] [] [] [] [] [] []]; intros H;
    first [ exact (Hsign (-1) r H) | exact (Hsign 1 r H)
          | exact (Hsign 1 (String _ r) H) ].
Qed.

Lemma parseInt_nonNumeric v : nonNumeric v -> JS.parseInt v = JS.NaN.
Proof.
  destruct v as [s|]; [apply parseIntString_nonNumeric | reflexivity].
Qed.




(** [limit=0] reaches the handler as [parseInt("0") || 50], which is 50:
    the answer echoes 50 and the page holds up to 50 entries. *)
Lemma limit_zero_reads_as_50 :
  (getMoods (listRequest (Some "0"%string) (Some "0"%string))
            initialState).2
    = {| statusCode := 200; body := PageBody [] 0 50 0 |} /\
  (getMoods (listRequest (Some "0"%string) (Some "0"%string))
            (withLedger [greatAt 0; greatAt 1])).2
    = {| statusCode := 200;
         body := PageBody [greatAt 1; greatAt 0] 2 50 0 |}.
Proof. split; reflexivity. Qed.

(** ** Calls in flight together *)

Section InFlight.
Import EventLoop.

Lemma awaiting_cons b text texts :
  awaiting b (text :: texts) = AwaitingInit b text :: awaiting (S b) texts.
Proof.
  unfold awaiting. simpl. rewrite Nat.add_0_r. f_equal.
  apply imap_ext. intros i t _. simpl. f_equal. lia.
Qed.

Lemma run_calls texts : forall w,
  sentimentPipeline (state w) = None ->
  run w (Call <$> texts) =
    {| state := state w;
       loads := loads w + length texts;
       tasks := tasks w ++ awaiting (loads w) texts |}.
Proof.
  induction texts as [|text rest IH]; intros w Hnone.
  - simpl. rewrite Nat.add_0_r, app_nil_r. by destruct w.
  - unfold run in *. simpl. rewrite Hnone.
    rewrite IH by done. simpl.
    rewrite awaiting_cons, <- app_assoc. simpl.
    f_equal. lia.
Qed.

(** A load that settles leaves the callers that await other loads
    where they are. *)
Lemma settleAll_others k r s texts : forall b,
  (k < b)%nat ->
  settleAll k r s (awaiting b texts) = (s, awaiting b texts).
Proof.
  induction texts as [|text rest IH]; intros b Hlt; [reflexivity|].
  rewrite awaiting_cons. simpl.
  destruct (Nat.eqb_spec k b) as [->|_]; [lia|].
  by rewrite IH by lia.
Qed.

Lemma settleAll_own r s texts : forall b k text,
  texts !! k = Some text ->
  settleAll (b + k) r s (awaiting b texts)
    = ((initializeSentimentPipeline r s).1,
       <[ k := afterLoad r text ]> (awaiting b texts)).
Proof.
  induction texts as [|t rest IH]; intros b k text Hk; [done|].
  rewrite awaiting_cons. destruct k as [|k].
  - injection Hk as ->. rewrite Nat.add_0_r. simpl.
    rewrite Nat.eqb_refl.
    destruct r as [p|reason]; simpl;
      by rewrite settleAll_others by lia.
  - simpl in Hk. simpl.
    destruct (Nat.eqb_spec (b + S k) b) as [Heq|_]; [lia|].
    replace (b + S k)%nat with (S b + k)%nat by lia.
    by rewrite (IH (S b) k text Hk).
Qed.

Lemma step_call_some w p text :
  sentimentPipeline (state w) = Some p ->
  step w (Call text) =
    {| state := state w; loads := loads w;
       tasks := tasks w ++ [Finished (classifyWith p text)] |}.
Proof.
  intros Hp. unfold step, finish. by rewrite Hp, tryClassify_cases, Hp.
Qed.

Lemma step_call_none w text :
  sentimentPipeline (state w) = None ->
  step w (Call text) =
    {| state := state w; loads := S (loads w);
       tasks := tasks w ++ [AwaitingInit (loads w) text] |}.
Proof. intros Hp. unfold step. by rewrite Hp. Qed.

(** One call alone goes through [analyzeSentiment] as run without
    interruption. *)
Lemma alone_agrees env text s :
  let w := run (start s)
               [Call text; LoadSettles 0 (pipelineLoad env); Resume 0] in
  state w = (analyzeSentiment env text s).1 /\
  tasks w = [Finished (analyzeSentiment env text s).2].
Proof.
  cbv zeta. rewrite analyzeSentiment_cases. unfold run.
  cbn [fold_left].
  destruct (sentimentPipeline s) as [p|] eqn:Hp.
  - rewrite (step_call_some (start s) p text Hp). by cbn.
  - rewrite (step_call_none (start s) text Hp).
    destruct (pipelineLoad env) as [p|reason]; cbn; [|done].
    unfold finish. rewrite tryClassify_cases. by cbn.
Qed.

(** C3 (amended).  Initialization is per call: of the calls of
    [analyzeSentiment] that arrive while [sentimentPipeline] is still
    null, each one calls [pipeline(...)] itself, so [n] such calls make
    [n] initializations; when one of these settles, the caller that
    made it, and no other, gets its outcome: "service unavailable" if
    it rejected, and otherwise the caller goes on to the analysis. *)
Theorem each_early_call_initializes (s : State) (texts : list string) :
  sentimentPipeline s = None ->
  let w := run (start s) (Call <$> texts) in
  loads w = length texts /\
  state w = s /\
  tasks w = awaiting 0 texts /\
  forall (k : nat) (text : string) (r : Settled Pipeline),
    texts !! k = Some text ->
    loads (step w (LoadSettles k r)) = length texts /\
    tasks (step w (LoadSettles k r))
      = <[ k := afterLoad r text ]> (tasks w).
Proof.
  intros Hnone. cbv zeta. rewrite run_calls by done.
  unfold start. cbn [state loads tasks app Nat.add].
  split; [reflexivity|]. split; [reflexivity|]. split; [reflexivity|].
  intros k text r Hk. unfold step. cbn [state loads tasks].
  pose proof (settleAll_own r s texts 0 k text Hk) as Hown.
  cbn [Nat.add] in Hown. rewrite !app_nil_l, Hown. by cbn.
Qed.

End InFlight.

(** Three early callers; the load of the second one rejects. *)
Lemma each_early_call_initializes_witness :
  let w := EventLoop.run (EventLoop.start initialState)
             (EventLoop.Call <$> ["good"; "bad"; "fine"]%string) in
  EventLoop.loads w = 3%nat /\
  EventLoop.tasks (EventLoop.step w (EventLoop.LoadSettles 1 (Rejected "offline")))
    = [ EventLoop.AwaitingInit 0 "good";
        EventLoop.Finished
          (Throw (mkError "Sentiment analysis service unavailable"));
        EventLoop.AwaitingInit 2 "fine" ].
Proof.
  cbv zeta.
  destruct (each_early_call_initializes initialState
              ["good"; "bad"; "fine"]%string eq_refl)
    as (Hloads & _ & Htasks & Hsettle).
  split; [exact Hloads|].
  destruct (Hsettle 1%nat "bad"%string (Rejected "offline") eq_refl)
    as [_ Ht].
  rewrite Ht, Htasks. reflexivity.
Defined.

(** C3, as stated, fails: ten calls before any initialization has
    completed make ten calls of [pipeline(...)]; and the callers do not
    share an outcome, here the first load rejects and the second
    resolves. *)
Lemma ten_callers_counterexample :
  let w := EventLoop.run (EventLoop.start initialState)
             (EventLoop.Call <$> replicate 10 "Great"%string) in
  let w' := EventLoop.run w
              [ EventLoop.LoadSettles 0 (Rejected "offline");
                EventLoop.LoadSettles 1 (Resolved alwaysPositive);
                EventLoop.Resume 1 ] in
  EventLoop.loads w = 10%nat /\
  EventLoop.tasks w' !! 0%nat
    = Some (EventLoop.Finished
              (Throw (mkError "Sentiment analysis service unavailable"))) /\
  EventLoop.tasks w' !! 1%nat
    = Some (EventLoop.Finished
              (Return {| sr_sentiment := Positive;
                         sr_confidence := 91 # 100;
                         sr_text := "Great" |})).
Proof. repeat split; reflexivity. Qed.

(** ** The theorems on examples *)

(** A text of white space is answered 400. *)
Lemma validation_rejects_exactly_invalid_text_witness :
  statusCode (app generous (ready_ 0) (sentimentRequest (JString "   "))
                  initialState).2 = 400.
Proof.
  destruct (validation_rejects_exactly_invalid_text generous (ready_ 0)
              (sentimentRequest (JString "   ")) initialState)
    as (_ & _ & H).
  apply H.
  - reflexivity.
  - left. reflexivity.
  - reflexivity.
  - left. reflexivity.
Defined.


(** A submission answered 503 leaves the ledger as it was. *)
Lemma failed_submit_leaves_ledger_witness :
  statusCode (app generous (at_ 0) (moodRequest "Great")
                  (withLedger [greatAt 0])).2 = 503 /\
  ledger (app generous (at_ 0) (moodRequest "Great")
              (withLedger [greatAt 0])).1 = [greatAt 0].
Proof.
  split; [reflexivity|].
  destruct (failed_submit_leaves_ledger generous (at_ 0)
              (moodRequest "Great") (withLedger [greatAt 0]))
    as [H _].
  - reflexivity.
  - reflexivity.
  - destruct H as [_ Hl].
    + vm_compute. discriminate.
    + rewrite Hl. reflexivity.
Defined.

(** A listing leaves a ledger of two entries in its order. *)
Lemma listing_does_not_mutate_witness :
  ledger (getMoods (listRequest (Some "1"%string) None)
                   (withLedger [greatAt 0; greatAt 1])).1
    = [greatAt 0; greatAt 1].
Proof.
  destruct (listing_does_not_mutate generous (at_ 0)
              (listRequest (Some "1"%string) None)
              (withLedger [greatAt 0; greatAt 1]))
    as [H _].
  - unfold allocated. eexists. reflexivity.
  - rewrite H. reflexivity.
Defined.

(** * Further properties of the server *)

(** ** The rate limiter: what it keeps in its map *)

Lemma rateLimitStore_after config env req s :
  let client := clientIdOf req in
  let kept := cleanUp (now env) (rateLimitStore s) in
  rateLimitStore (rateLimitMiddleware config env req s).1 = kept \/
  exists c, (c = {| count := 1;
                    resetTime := now env + rateLimitWindow config |} \/
             exists c0, liveRecord (now env) (rateLimitStore s) client = Some c0
                        /\ count c0 < rateLimitMax config
                        /\ c = {| count := count c0 + 1;
                                  resetTime := resetTime c0 |}) /\
            rateLimitStore (rateLimitMiddleware config env req s).1
              = <[ client := c ]> kept.
Proof.
  cbv zeta. rewrite rateLimitMiddleware_cases.
  destruct (liveRecord _ _ _) as [c0|] eqn:Hl.
  - destruct (Z.geb_spec (count c0) (rateLimitMax config)) as [Hge|Hlt].
    + by left.
    + right. eexists. split; [|reflexivity]. right. exists c0. by repeat split.
  - right. eexists. split; [|reflexivity]. by left.
Qed.

(** X1.  After a call of the rate limiter at time [now], with a window
    that is not negative, no stored record has a window that ended before
    [now]: expired records are swept on every call, whoever calls. *)
Theorem rate_limiter_sweeps_expired (config : Config) (env : Env)
    (req : Request) (s : State) :
  0 <= rateLimitWindow config ->
  noneExpired (now env)
    (rateLimitStore (rateLimitMiddleware config env req s).1).
Proof.
  intros HW. unfold noneExpired.
  assert (Hkept : map_Forall (fun _ c => now env <= resetTime c)
                    (cleanUp (now env) (rateLimitStore s))).
  { intros i c Hi. rewrite cleanUp_lookup in Hi.
    pose proof (liveRecord_not_expired _ _ _ _ Hi) as Hne.
    destruct (Z.ltb_spec (resetTime c) (now env)); [discriminate | lia]. }
  destruct (rateLimitStore_after config env req s) as [->|(c & Hc & ->)];
    [exact Hkept|].
  apply map_Forall_insert_2; [|exact Hkept].
  destruct Hc as [->|(c0 & Hl & _ & ->)]; simpl; [lia|].
  pose proof (liveRecord_not_expired _ _ _ _ Hl) as Hne.
  destruct (Z.ltb_spec (resetTime c0) (now env)); [discriminate | lia].
Qed.

(** An expired record of another client is gone after the call. *)
Lemma rate_limiter_sweeps_expired_witness :
  let s := setRateLimitStore initialState
             {[ "10.0.0.2"%string := {| count := 7; resetTime := 100 |} ]} in
  noneExpired 101
    (rateLimitStore
       (rateLimitMiddleware twoPerSecond (at_ 101)
          (exampleRequest GET "/api/moods") s).1) /\
  rateLimitStore
    (rateLimitMiddleware twoPerSecond (at_ 101)
       (exampleRequest GET "/api/moods") s).1 !! "10.0.0.2"%string = None.
Proof.
  split; [|reflexivity].
  apply (rate_limiter_sweeps_expired twoPerSecond (at_ 101)).
  simpl. lia.
Defined.

(** X2.  A call of the rate limiter for one client leaves the record of
    every other client as it was, unless that record had expired, in
    which case it is removed. *)
Theorem rate_limiter_isolates_clients (config : Config) (env : Env)
    (req : Request) (s : State) (other : string) :
  other <> clientIdOf req ->
  rateLimitStore (rateLimitMiddleware config env req s).1 !! other
    = liveRecord (now env) (rateLimitStore s) other.
Proof.
  intros Hne.
  destruct (rateLimitStore_after config env req s) as [->|(c & _ & ->)].
  - apply cleanUp_lookup.
  - rewrite lookup_insert_ne by done. apply cleanUp_lookup.
Qed.

(** A client at its ceiling stays there while another client calls. *)
Lemma rate_limiter_isolates_clients_witness :
  let s := setRateLimitStore initialState
             {[ "10.0.0.2"%string := {| count := 2; resetTime := 900 |} ]} in
  rateLimitStore
    (rateLimitMiddleware twoPerSecond (at_ 101)
       (exampleRequest GET "/api/moods") s).1 !! "10.0.0.2"%string
    = Some {| count := 2; resetTime := 900 |}.
Proof.
  cbv zeta.
  rewrite (rate_limiter_isolates_clients twoPerSecond (at_ 101)
             (exampleRequest GET "/api/moods") _ "10.0.0.2"%string).
  - reflexivity.
  - discriminate.
Defined.

(** The rate limiter keeps the counts within bounds. *)
Lemma rateLimitMiddleware_countsBounded config env req s :
  countsBounded config (rateLimitStore s) ->
  countsBounded config
    (rateLimitStore (rateLimitMiddleware config env req s).1).
Proof.
  intros Hb. unfold countsBounded in *.
  assert (Hkept : map_Forall
            (fun _ c => 1 <= count c <= Z.max 1 (rateLimitMax config))
            (cleanUp (now env) (rateLimitStore s))).
  { intros i c Hi. rewrite cleanUp_lookup in Hi. unfold liveRecord in Hi.
    destruct (rateLimitStore s !! i) as [c'|] eqn:Hs; [|discriminate].
    destruct (resetTime c' <? now env); [discriminate|].
    injection Hi as <-. exact (Hb i c' Hs). }
  destruct (rateLimitStore_after config env req s) as [->|(c & Hc & ->)];
    [exact Hkept|].
  apply map_Forall_insert_2; [|exact Hkept].
  destruct Hc as [->|(c0 & Hl & Hlt & ->)]; simpl; [lia|].
  assert (H0 : 1 <= count c0 <= Z.max 1 (rateLimitMax config)).
  { apply (Hkept (clientIdOf req)). by rewrite cleanUp_lookup. }
  lia.
Qed.

(** The routes leave [rateLimitStore] alone. *)
Lemma routes_rateLimitStore env req s :
  rateLimitStore (routes env req s).1 = rateLimitStore s.
Proof.
  unfold routes.
  destruct (isGet (method req) && routeMatches "/api/health" (path req));
    [reflexivity|].
  destruct (isPost (method req) && routeMatches "/api/sentiment" (path req)).
  { destruct (validateSentimentInput env req); [reflexivity|].
    rewrite postSentiment_cases.
    pose proof (analyzeSentiment_frame env (textOf req) s) as [_ Hr].
    by destruct (analyzeSentiment env (textOf req) s) as [s1 [r|e]]. }
  destruct (isPost (method req) && routeMatches "/api/moods" (path req)).
  { destruct (validateSentimentInput env req); [reflexivity|].
    rewrite postMoods_cases.
    pose proof (analyzeSentiment_frame env (textOf req) s) as [_ Hr].
    destruct (analyzeSentiment env (textOf req) s) as [s1 [r|e]];
      cbn [fst snd] in *; [|done].
    destruct (store_spec (entryFor env r) s1) as (_ & _ & Hs & _).
    by rewrite Hs. }
  destruct (isGet (method req) && routeMatches "/api/moods" (path req));
    reflexivity.
Qed.

Lemma app_rateLimitStore config env req s :
  rateLimitStore (app config env req s).1 = rateLimitStore s \/
  rateLimitStore (app config env req s).1
    = rateLimitStore (rateLimitMiddleware config env req s).1.
Proof.
  unfold app. destruct (corsMiddleware req); [by left|]. right.
  destruct (rateLimitMiddleware config env req s) as [s1 [r|]];
    [reflexivity|]. apply routes_rateLimitStore.
Qed.

(** X3.  Whatever requests the server handles from its start, every
    stored count is at least 1 and at most the ceiling (at most 1 when
    the ceiling is below 1). *)
Theorem stored_counts_stay_within_ceiling (config : Config)
    (reqs : list (Env * Request)) :
  countsBounded config (rateLimitStore (serve config reqs initialState).1).
Proof.
  assert (H : forall s, countsBounded config (rateLimitStore s) ->
                countsBounded config (rateLimitStore (serve config reqs s).1)).
  { induction reqs as [|[env req] rest IH]; intros s Hs; [exact Hs|].
    simpl.
    assert (H1 : countsBounded config
                   (rateLimitStore (app config env req s).1)).
    { destruct (app_rateLimitStore config env req s) as [->| ->];
        [exact Hs|]. by apply rateLimitMiddleware_countsBounded. }
    destruct (app config env req s) as [s1 r]. cbn [fst] in H1.
    specialize (IH s1 H1).
    by destruct (serve config rest s1) as [s2 rs]. }
  apply H. unfold countsBounded, initialState. simpl.
  apply map_Forall_empty.
Qed.

(** ** The status of a response *)

Lemma routes_status env req s :
  (matchesRoute req = true /\
   In (statusCode (routes env req s).2) [200; 201; 400; 500; 503]) \/
  (matchesRoute req = false /\ routes env req s = (s, notFound env req)).
Proof.
  unfold routes, matchesRoute.
  destruct (isGet (method req) && routeMatches "/api/health" (path req)).
  { left. split; [reflexivity|]. simpl. tauto. }
  destruct (isPost (method req) && routeMatches "/api/sentiment" (path req)).
  { left. split; [reflexivity|].
    destruct (validateSentimentInput env req) as [r|] eqn:Hv.
    - apply validateSentimentInput_respond in Hv as [Hr _].
      cbn [snd]. rewrite Hr. simpl. tauto.
    - rewrite postSentiment_cases.
      destruct (analyzeSentiment env (textOf req) s) as [s1 [r|e]];
        cbn [snd]; [simpl; tauto|].
      destruct (errorHandler_status e env) as [H|[H|H]]; rewrite H;
        simpl; tauto. }
  destruct (isPost (method req) && routeMatches "/api/moods" (path req)).
  { left. split; [reflexivity|].
    destruct (validateSentimentInput env req) as [r|] eqn:Hv.
    - apply validateSentimentInput_respond in Hv as [Hr _].
      cbn [snd]. rewrite Hr. simpl. tauto.
    - rewrite postMoods_cases.
      destruct (analyzeSentiment env (textOf req) s) as [s1 [r|e]];
        cbn [snd]; [simpl; tauto|].
      destruct (errorHandler_status e env) as [H|[H|H]]; rewrite H;
        simpl; tauto. }
  destruct (isGet (method req) && routeMatches "/api/moods" (path req)).
  { left. split; [reflexivity|]. rewrite getMoods_status. simpl. tauto. }
  right. split; reflexivity.
Qed.

Lemma corsMiddleware_cases req :
  (method req = OPTIONS /\
   corsMiddleware req = Respond {| statusCode := 200; body := StatusText |})
  \/ (method req <> OPTIONS /\ corsMiddleware req = Next).
Proof.
  unfold corsMiddleware. destruct (method req); try (right; by split).
  left. by split.
Qed.

(** X4.  Every response of the application has one of the statuses 200,
    201, 400, 404, 429, 500 and 503; and 201 is the status of a [POST] to
    [/api/moods] and of nothing else. *)
Theorem every_status_is_known (config : Config) (env : Env) (req : Request)
    (s : State) :
  In (statusCode (app config env req s).2)
     [200; 201; 400; 404; 429; 500; 503] /\
  (statusCode (app config env req s).2 = 201 ->
   method req = POST /\ routeMatches "/api/moods" (path req) = true).
Proof.
  unfold app.
  destruct (corsMiddleware_cases req) as [[_ ->]|[Hm ->]].
  { split; [simpl; tauto | discriminate]. }
  pose proof (rateLimitMiddleware_respond config env req s) as Hresp.
  destruct (rateLimitMiddleware config env req s) as [s1 [r|]];
    cbn [fst snd] in *.
  { destruct (Hresp r eq_refl) as [Hr _]. rewrite Hr.
    split; [simpl; tauto | discriminate]. }
  destruct (routes_status env req s1) as [[_ Hin]|[_ ->]].
  - split; [simpl in *; tauto|].
    intros H201. clear Hin. revert H201. unfold routes.
    destruct (isGet (method req) && routeMatches "/api/health" (path req));
      [discriminate|].
    destruct (isPost (method req)
              && routeMatches "/api/sentiment" (path req)).
    { destruct (validateSentimentInput env req) as [r|] eqn:Hv.
      - apply validateSentimentInput_respond in Hv as [Hr _].
        cbn [snd]. rewrite Hr. discriminate.
      - rewrite postSentiment_cases.
        destruct (analyzeSentiment env (textOf req) s1) as [s2 [r|e]];
          cbn [snd]; [discriminate|].
        destruct (errorHandler_status e env) as [H|[H|H]]; rewrite H;
          discriminate. }
    destruct (isPost (method req) && routeMatches "/api/moods" (path req))
      eqn:Hmoods.
    { intros _. apply andb_true_iff in Hmoods as [Hp Hpath].
      split; [|exact Hpath]. by destruct (method req). }
    destruct (isGet (method req) && routeMatches "/api/moods" (path req)).
    { rewrite getMoods_status. discriminate. }
    discriminate.
  - split; [simpl; tauto | discriminate].
Qed.


(** X6.  A request is answered 429 if and only if it is not a preflight
    request and the rate limiter denies it; such a request reaches no
    route: the ledger and the pipeline are as before, and in the map of
    the rate limiter only expired records have gone. *)
Theorem denied_request_has_no_effect (config : Config) (env : Env)
    (req : Request) (s : State) :
  (statusCode (app config env req s).2 = 429
     <-> method req <> OPTIONS /\
         exists r, (rateLimitMiddleware config env req s).2 = Respond r) /\
  (statusCode (app config env req s).2 = 429 ->
   (app config env req s).2 = tooManyRequests config env /\
   arrays (app config env req s).1 = arrays s /\
   sentimentPipeline (app config env req s).1 = sentimentPipeline s /\
   rateLimitStore (app config env req s).1
     = cleanUp (now env) (rateLimitStore s)).
Proof.
  unfold app.
  destruct (corsMiddleware_cases req) as [[Hm ->]|[Hm ->]].
  { split; [split; [discriminate | by intros [? _]] | discriminate]. }
  pose proof (rateLimitMiddleware_frame config env req s) as [Harr Hpipe].
  pose proof (denied_keeps_record config env req s) as Hden.
  pose proof (rateLimitStore_after config env req s) as Hafter.
  pose proof (rateLimitMiddleware_cases config env req s) as Hcases.
  destruct (rateLimitMiddleware config env req s) as [s1 [r|]] eqn:Hrl;
    cbn [fst snd] in *.
  - destruct (Hden r eq_refl) as [-> _].
    split; [split; [eauto | reflexivity]|].
    intros _. repeat split; try done.
    cbv zeta in Hcases.
    destruct (liveRecord _ _ _) as [c|]; [|discriminate].
    destruct (count c >=? rateLimitMax config); [|discriminate].
    by injection Hcases as ->.
  - assert (Hne : statusCode (routes env req s1).2 <> 429).
    { destruct (routes_status env req s1) as [[_ Hin]|[_ ->]];
        [simpl in Hin; lia | discriminate]. }
    split; [split; [done|] | done].
    intros (_ & r & Hr). discriminate.
Qed.

(** ** The life of the pipeline *)

Lemma getMoods_frame req s :
  rateLimitStore (getMoods req s).1 = rateLimitStore s /\
  sentimentPipeline (getMoods req s).1 = sentimentPipeline s /\
  exists moods total limit offset,
    body (getMoods req s).2 = PageBody moods total limit offset.
Proof.
  unfold getMoods, Array_copy, Array_slice, Array_reverse. simpl.
  repeat split; eauto.
Qed.

Lemma analyzeSentiment_pipeline env text s :
  sentimentPipeline (analyzeSentiment env text s).1 = pipelineAfter env s.
Proof.
  rewrite analyzeSentiment_cases. unfold pipelineAfter.
  destruct (sentimentPipeline s) as [p|] eqn:Hp; [exact Hp|].
  destruct (pipelineLoad env); [reflexivity | exact Hp].
Qed.

Lemma runHandler_pipeline env req s :
  sentimentPipeline (runHandler env (handlerOf env req) s).1
    = pipelineAfter env s.
Proof.
  unfold handlerOf.
  pose proof (analyzeSentiment_pipeline env (textOf req) s) as Hp.
  destruct (routeMatches "/api/sentiment" (path req));
    [rewrite postSentiment_cases | rewrite postMoods_cases];
    destruct (analyzeSentiment env (textOf req) s) as [s1 [r|e]];
    cbn [fst snd] in *; try exact Hp.
  destruct (store_spec (entryFor env r) s1) as (_ & _ & _ & Hs).
  by rewrite Hs.
Qed.

(** The pipeline after a request. *)
Lemma app_pipeline config env req s :
  (reachesAnalysis config env req s ->
   sentimentPipeline (app config env req s).1 = pipelineAfter env s) /\
  (~ reachesAnalysis config env req s ->
   sentimentPipeline (app config env req s).1 = sentimentPipeline s).
Proof.
  split.
  - intros Hreach. rewrite (app_reaches _ _ _ _ Hreach).
    rewrite runHandler_pipeline. unfold pipelineAfter.
    pose proof (rateLimitMiddleware_frame config env req s) as [_ Hp].
    by rewrite Hp.
  - intros Hnot. unfold app.
    destruct (corsMiddleware req) as [r|]; [reflexivity|].
    pose proof (rateLimitMiddleware_frame config env req s) as [_ Hp].
    destruct (rateLimitMiddleware config env req s) as [s1 [r|]] eqn:Hrate;
      cbn [fst snd] in *; [exact Hp|].
    unfold routes.
    destruct (isGet (method req) && routeMatches "/api/health" (path req));
      [exact Hp|].
    destruct (isPost (method req)
              && routeMatches "/api/sentiment" (path req)) eqn:Hs.
    { apply andb_true_iff in Hs as [Hpost Hpath].
      destruct (validateSentimentInput env req) as [r|] eqn:Hv; [exact Hp|].
      exfalso. apply Hnot. unfold reachesAnalysis. rewrite Hrate. eauto. }
    destruct (isPost (method req) && routeMatches "/api/moods" (path req))
      eqn:Hm.
    { apply andb_true_iff in Hm as [Hpost Hpath].
      destruct (validateSentimentInput env req) as [r|] eqn:Hv; [exact Hp|].
      exfalso. apply Hnot. unfold reachesAnalysis. rewrite Hrate. eauto. }
    destruct (isGet (method req) && routeMatches "/api/moods" (path req));
      [|exact Hp].
    destruct (getMoods_frame req s1) as (_ & Hg & _). by rewrite Hg.
Qed.








(** X9.  The pipeline changes only by a lazy initialization that
    succeeds: if a request leaves [sentimentPipeline] other than it found
    it, the request reached [analyzeSentiment], the pipeline was null
    and it is now the one [pipeline(...)] resolved to.  Health checks,
    listings, rejected and denied requests never load the model. *)
Theorem pipeline_changes_only_by_initialization (config : Config)
    (env : Env) (req : Request) (s : State) :
  sentimentPipeline (app config env req s).1 <> sentimentPipeline s ->
  reachesAnalysis config env req s /\
  sentimentPipeline s = None /\
  exists p, pipelineLoad env = Resolved p /\
            sentimentPipeline (app config env req s).1 = Some p.
Proof.
  intros Hchg.
  destruct (app_pipeline config env req s) as [Hyes Hno].
  destruct (classic_reaches config env req s) as [Hreach|Hnot];
    [|by rewrite (Hno Hnot) in Hchg].
  split; [exact Hreach|].
  rewrite (Hyes Hreach) in *. unfold pipelineAfter in *.
  destruct (sentimentPipeline s) as [p0|]; [done|].
  split; [reflexivity|].
  destruct (pipelineLoad env) as [p|reason]; [eauto | done].
Qed.

(** The first valid submission loads the model. *)
Lemma pipeline_changes_only_by_initialization_witness :
  reachesAnalysis generous (ready_ 0) (moodRequest "Great") initialState /\
  exists p, sentimentPipeline
              (app generous (ready_ 0) (moodRequest "Great")
                   initialState).1 = Some p.
Proof.
  destruct (pipeline_changes_only_by_initialization generous (ready_ 0)
              (moodRequest "Great") initialState)
    as (Hreach & _ & p & _ & Hp).
  - discriminate.
  - split; [exact Hreach | by exists p].
Defined.

(** ** The routes, one by one *)

Lemma rateLimitMiddleware_client config env req req' s :
  clientIdOf req = clientIdOf req' ->
  rateLimitMiddleware config env req s
    = rateLimitMiddleware config env req' s.
Proof. intros H. unfold rateLimitMiddleware. by rewrite H. Qed.

Lemma validateSentimentInput_body env req req' :
  body_text req = body_text req' ->
  validateSentimentInput env req = validateSentimentInput env req'.
Proof. intros H. unfold validateSentimentInput. by rewrite H. Qed.

Lemma isPost_POST req : isPost (method req) = true -> method req = POST.
Proof. by destruct (method req). Qed.

(** [POST /api/sentiment], from the rate limiter on. *)
Lemma app_postSentiment config env req s :
  isPost (method req) = true ->
  routeMatches "/api/sentiment" (path req) = true ->
  app config env req s =
    match rateLimitMiddleware config env req s with
    | (s1, Respond r) => (s1, r)
    | (s1, Next) =>
        match validateSentimentInput env req with
        | Respond r => (s1, r)
        | Next => runHandler env (postSentiment env req) s1
        end
    end.
Proof.
  intros Hpost Hpath. unfold app.
  rewrite corsMiddleware_next by (destruct (method req); done).
  destruct (rateLimitMiddleware config env req s) as [s1 [r|]];
    [reflexivity|].
  unfold routes.
  assert (Hget : isGet (method req) = false)
    by (destruct (method req); done).
  by rewrite Hget, Hpost, Hpath.
Qed.

(** [POST /api/moods], from the rate limiter on. *)
Lemma app_postMoods config env req s :
  isPost (method req) = true ->
  routeMatches "/api/moods" (path req) = true ->
  app config env req s =
    match rateLimitMiddleware config env req s with
    | (s1, Respond r) => (s1, r)
    | (s1, Next) =>
        match validateSentimentInput env req with
        | Respond r => (s1, r)
        | Next => runHandler env (postMoods env req) s1
        end
    end.
Proof.
  intros Hpost Hpath. unfold app.
  rewrite corsMiddleware_next by (destruct (method req); done).
  destruct (rateLimitMiddleware config env req s) as [s1 [r|]];
    [reflexivity|].
  unfold routes.
  assert (Hget : isGet (method req) = false)
    by (destruct (method req); done).
  destruct (routeMatches_moods _ Hpath) as [_ Hs].
  by rewrite Hget, Hpost, Hpath, Hs.
Qed.

(** [GET /api/moods], from the rate limiter on. *)
Lemma app_getMoods config env req s :
  isGet (method req) = true ->
  routeMatches "/api/moods" (path req) = true ->
  app config env req s =
    match rateLimitMiddleware config env req s with
    | (s1, Respond r) => (s1, r)
    | (s1, Next) => getMoods req s1
    end.
Proof.
  intros Hget Hpath. unfold app.
  rewrite corsMiddleware_next by (destruct (method req); done).
  destruct (rateLimitMiddleware config env req s) as [s1 [r|]];
    [reflexivity|].
  unfold routes.
  assert (Hpost : isPost (method req) = false)
    by (destruct (method req); done).
  destruct (routeMatches_moods _ Hpath) as [Hh _].
  by rewrite Hget, Hpost, Hpath, Hh.
Qed.

(** X10.  [POST /api/sentiment] and [POST /api/moods] agree: for the same
    client, body, time and state, the one is answered 200 with a result
    exactly when the other is answered 201 with the entry made of that
    result, and otherwise both get the same answer; and
    [POST /api/sentiment] never changes an array. *)
Theorem analysis_and_submission_agree (config : Config) (env : Env)
    (reqS reqM : Request) (s : State) :
  isPost (method reqS) = true ->
  routeMatches "/api/sentiment" (path reqS) = true ->
  isPost (method reqM) = true ->
  routeMatches "/api/moods" (path reqM) = true ->
  clientIdOf reqS = clientIdOf reqM ->
  body_text reqS = body_text reqM ->
  arrays (app config env reqS s).1 = arrays s /\
  (forall r,
     (app config env reqS s).2
       = {| statusCode := 200; body := SentimentBody r |}
     <-> (app config env reqM s).2
       = {| statusCode := 201; body := MoodBody (entryFor env r) |}) /\
  (statusCode (app config env reqS s).2 <> 200 ->
   (app config env reqM s).2 = (app config env reqS s).2).
Proof.
  intros HpS HrS HpM HrM Hclient Hbody.
  rewrite (app_postSentiment config env reqS s HpS HrS).
  rewrite (app_postMoods config env reqM s HpM HrM).
  rewrite <- (rateLimitMiddleware_client config env reqS reqM s Hclient).
  rewrite <- (validateSentimentInput_body env reqS reqM Hbody).
  pose proof (rateLimitMiddleware_frame config env reqS s) as [Harr _].
  pose proof (rateLimitMiddleware_respond config env reqS s) as Hresp.
  destruct (rateLimitMiddleware config env reqS s) as [s1 [r0|]];
    cbn [fst snd] in *.
  { destruct (Hresp r0 eq_refl) as (H429 & e & Hb).
    split; [exact Harr|]. split; [|done].
    intros r. split; intros ->; discriminate. }
  destruct (validateSentimentInput env reqS) as [r0|] eqn:Hv.
  { apply validateSentimentInput_respond in Hv as (H400 & msg & Hb).
    split; [exact Harr|]. cbn [snd]. split; [|done].
    intros r. split; intros ->; discriminate. }
  rewrite postSentiment_cases, postMoods_cases.
  assert (Htext : textOf reqM = textOf reqS).
  { unfold textOf. by rewrite Hbody. }
  rewrite Htext.
  pose proof (analyzeSentiment_frame env (textOf reqS) s1) as [Harr1 _].
  destruct (analyzeSentiment env (textOf reqS) s1) as [s2 [r|e]];
    cbn [fst snd] in *.
  - split; [by rewrite Harr1|]. split; [|done].
    intros r'. split; [by intros [= ->]|].
    intros [= Ht Hs Hc]. destruct r, r'. simpl in *. by subst.
  - split; [by rewrite Harr1|]. split; [|done].
    intros r'. destruct (errorHandler_status e env) as [H|[H|H]];
      split; intros Heq; rewrite Heq in H; discriminate.
Qed.

(** The same "Great" analysed and submitted. *)
Lemma analysis_and_submission_agree_witness :
  (app generous (ready_ 7) (sentimentRequest (JString "Great"))
       initialState).2
    = {| statusCode := 200;
         body := SentimentBody {| sr_sentiment := Positive;
                                  sr_confidence := 91 # 100;
                                  sr_text := "Great" |} |} /\
  (app generous (ready_ 7) (moodRequest "Great") initialState).2
    = {| statusCode := 201; body := MoodBody (greatAt 7) |}.
Proof.
  destruct (analysis_and_submission_agree generous (ready_ 7)
              (sentimentRequest (JString "Great")) (moodRequest "Great")
              initialState) as (_ & H & _); try reflexivity.
  split; [reflexivity|].
  apply (H {| sr_sentiment := Positive; sr_confidence := 91 # 100;
              sr_text := "Great" |}).
  reflexivity.
Defined.

(** ** Submitting and listing *)

Lemma lastN_snoc {A} n (l : list A) x :
  (1 <= n)%nat -> exists l', lastN n (l ++ [x]) = l' ++ [x].
Proof.
  intros Hn. unfold lastN. rewrite length_app. simpl.
  exists (drop (length l + 1 - n) l).
  rewrite drop_app_le by lia. reflexivity.
Qed.

(** The state an answer with a created entry comes with. *)
Lemma app_created config env req s e :
  body (app config env req s).2 = MoodBody e ->
  allocated (app config env req s).1 /\
  ledger (app config env req s).1 = lastN cap (ledger s ++ [e]).
Proof.
  unfold app.
  destruct (corsMiddleware_cases req) as [[_ ->]|[_ ->]]; [discriminate|].
  pose proof (rateLimitMiddleware_frame config env req s) as [Harr _].
  pose proof (rateLimitMiddleware_respond config env req s) as Hresp.
  destruct (rateLimitMiddleware config env req s) as [s1 [r|]];
    cbn [fst snd] in *.
  { destruct (Hresp r eq_refl) as (_ & e0 & ->). discriminate. }
  unfold routes.
  destruct (isGet (method req) && routeMatches "/api/health" (path req));
    [discriminate|].
  destruct (isPost (method req) && routeMatches "/api/sentiment" (path req)).
  { destruct (validateSentimentInput env req) as [r|] eqn:Hv.
    - apply validateSentimentInput_respond in Hv as (_ & msg & Hb).
      cbn [snd]. rewrite Hb. discriminate.
    - rewrite postSentiment_cases.
      by destruct (analyzeSentiment env (textOf req) s1) as [s2 [r|e0]]. }
  destruct (isPost (method req) && routeMatches "/api/moods" (path req)).
  { destruct (validateSentimentInput env req) as [r|] eqn:Hv.
    - apply validateSentimentInput_respond in Hv as (_ & msg & Hb).
      cbn [snd]. rewrite Hb. discriminate.
    - rewrite postMoods_cases.
      pose proof (analyzeSentiment_frame env (textOf req) s1) as [Harr1 _].
      destruct (analyzeSentiment env (textOf req) s1) as [s2 [r|e0]];
        cbn [fst snd] in *; [|discriminate].
      intros [= <-].
      destruct (store_spec (entryFor env r) s2) as (Hl & Ha & _).
      split; [exact Ha|]. rewrite Hl. unfold ledger, deref.
      by rewrite Harr1, Harr. }
  destruct (isGet (method req) && routeMatches "/api/moods" (path req)).
  { destruct (getMoods_frame req s1) as (_ & _ & m & tt & l & o & ->).
    discriminate. }
  discriminate.
Qed.

Lemma sliceOf_nonneg {A} (l : list A) a b :
  0 <= a -> 0 <= b ->
  JS.sliceOf l a (a + b) = take (Z.to_nat b) (drop (Z.to_nat a) l).
Proof.
  intros Ha Hb. unfold JS.sliceOf, JS.relIndex.
  destruct (Z.ltb_spec a 0) as [?|_]; [lia|].
  destruct (Z.ltb_spec (a + b) 0) as [?|_]; [lia|].
  destruct (Z.le_gt_cases (Z.of_nat (length l)) a) as [Hge|Hlt].
  - rewrite (Z.min_r a) by lia.
    rewrite !(drop_ge l) by lia. by rewrite !take_nil.
  - rewrite (Z.min_l a) by lia.
    destruct (Z.le_gt_cases (a + b) (Z.of_nat (length l))) as [Hin|Hout].
    + rewrite Z.min_l by lia. do 2 f_equal. lia.
    + rewrite Z.min_r by lia.
      rewrite !take_ge; [reflexivity | |]; rewrite length_drop; lia.
Qed.

(** X11.  What is submitted is listed first: after a [POST /api/moods]
    answered with a created entry, a [GET /api/moods] with no usable
    [limit] and [offset], let through by the rate limiter, lists that
    entry first, with [limit] 50, [offset] 0 and the size of the ledger as
    [total]. *)
Theorem submitted_entry_is_listed_first (config : Config) (env : Env)
    (req : Request) (s : State) (e : MoodEntry)
    (env' : Env) (req' : Request) :
  body (app config env req s).2 = MoodBody e ->
  isGet (method req') = true ->
  routeMatches "/api/moods" (path req') = true ->
  nonNumeric (query_limit req') ->
  nonNumeric (query_offset req') ->
  (rateLimitMiddleware config env' req' (app config env req s).1).2 = Next ->
  exists older,
    (app config env' req' (app config env req s).1).2
      = {| statusCode := 200;
           body := PageBody (e :: older)
                     (Z.of_nat (length (ledger (app config env req s).1)))
                     50 0 |}.
Proof.
  intros Hcreated Hget Hpath Hlimit Hoffset Hrate.
  destruct (app_created config env req s e Hcreated) as [Ha Hl].
  set (s' := (app config env req s).1) in *.
  rewrite (app_getMoods config env' req' s' Hget Hpath).
  pose proof (rateLimitMiddleware_frame config env' req' s') as [Harr _].
  destruct (rateLimitMiddleware config env' req' s') as [s1 d].
  cbn [fst snd] in *. subst d.
  assert (Ha1 : allocated s1) by (unfold allocated; by rewrite Harr).
  assert (Hl1 : ledger s1 = ledger s') by (unfold ledger, deref; by rewrite Harr).
  destruct (getMoods_spec req' s1 Ha1) as (_ & _ & _ & Hresp).
  rewrite Hresp, Hl1.
  rewrite (parseInt_nonNumeric _ Hlimit), (parseInt_nonNumeric _ Hoffset).
  cbn [JS.orDefault].
  destruct (lastN_snoc cap (ledger s) e) as [l' Hl']; [rewrite cap_eq; lia|].
  rewrite Hl, Hl'. rewrite rev_app_distr. cbn [rev app].
  exists (take 49 (rev l')).
  rewrite (sliceOf_nonneg _ 0 50) by lia.
  reflexivity.
Qed.

(** A submission at time 3, then a listing. *)
Lemma submitted_entry_is_listed_first_witness :
  (app generous (at_ 4) (listRequest None None)
       (app generous (ready_ 3) (moodRequest "Great")
            (withLedger [greatAt 0; greatAt 1])).1).2
    = {| statusCode := 200;
         body := PageBody [greatAt 3; greatAt 1; greatAt 0] 3 50 0 |}.
Proof.
  destruct (submitted_entry_is_listed_first generous (ready_ 3)
              (moodRequest "Great") (withLedger [greatAt 0; greatAt 1])
              (greatAt 3) (at_ 4) (listRequest None None))
    as [older Holder]; try reflexivity; try exact I.
Defined.

(** ** Pages of the ledger *)




(** X13.  Pages tile the ledger: with the ledger unchanged, the page of
    [a] entries at [offset] followed by the page of [b] entries at
    [offset + a] is the page of [a + b] entries at [offset]; no entry is
    listed twice or skipped between them. *)
Theorem consecutive_pages_tile (req1 req2 req12 : Request) (s : State)
    (offset a b : Z) :
  allocated s ->
  0 <= offset -> 0 < a -> 0 < b ->
  JS.parseInt (query_offset req1) = JS.Num offset ->
  JS.parseInt (query_limit req1) = JS.Num a ->
  JS.parseInt (query_offset req2) = JS.Num (offset + a) ->
  JS.parseInt (query_limit req2) = JS.Num b ->
  JS.parseInt (query_offset req12) = JS.Num offset ->
  JS.parseInt (query_limit req12) = JS.Num (a + b) ->
  moodsOf (getMoods req1 s).2 ++ moodsOf (getMoods req2 s).2
    = moodsOf (getMoods req12 s).2.
Proof.
  intros Ha Ho Hapos Hbpos Ho1 Hl1 Ho2 Hl2 Ho12 Hl12.
  assert (Hd : forall n d, 0 < n -> JS.orDefault (JS.Num n) d = n)
    by (intros n d Hn; destruct n; done || lia).
  assert (Hd0 : forall n, JS.orDefault (JS.Num n) 0 = n)
    by (intros n; by destruct n).
  unfold moodsOf.
  destruct (getMoods_spec req1 s Ha) as (_ & _ & _ & ->).
  destruct (getMoods_spec req2 s Ha) as (_ & _ & _ & ->).
  destruct (getMoods_spec req12 s Ha) as (_ & _ & _ & ->).
  rewrite Ho1, Hl1, Ho2, Hl2, Ho12, Hl12. cbn [body].
  rewrite !Hd0, !Hd by lia.
  rewrite !sliceOf_nonneg by lia.
  replace (Z.to_nat (offset + a)) with (Z.to_nat offset + Z.to_nat a)%nat
    by lia.
  rewrite <- drop_drop.
  rewrite take_take_drop. f_equal. lia.
Qed.

(** Two pages of 2 and the page of 4, on a ledger of five. *)
Lemma consecutive_pages_tile_witness :
  let s := withLedger [greatAt 0; greatAt 1; greatAt 2; greatAt 3;
                       greatAt 4] in
  moodsOf (getMoods (listRequest (Some "2"%string) (Some "0"%string)) s).2
  ++ moodsOf (getMoods (listRequest (Some "2"%string) (Some "2"%string)) s).2
  = [greatAt 4; greatAt 3; greatAt 2; greatAt 1].
Proof.
  cbv zeta.
  rewrite (consecutive_pages_tile
             (listRequest (Some "2"%string) (Some "0"%string))
             (listRequest (Some "2"%string) (Some "2"%string))
             (listRequest (Some "4"%string) (Some "0"%string))
             _ 0 2 2); try reflexivity; try lia.
  unfold allocated. eexists. reflexivity.
Defined.

(** ** The messages of the validator *)

Lemma strlen_zero s : JS.strlen s = 0 <-> s = ""%string.
Proof.
  unfold JS.strlen. destruct s; simpl; [done|]. split; [lia | discriminate].
Qed.

Lemma trim_empty : JS.trim "" = ""%string.
Proof. reflexivity. Qed.

(** X14.  The validator reports the first check that fails, in the
    order of the source: "required" for a [text] that is absent, not a
    string or the empty string; "cannot be empty" for a non-empty string
    of white space only, however long; "less than 1000 characters" for a
    string with something else in it and more than 1000 code units.  A
    text of exactly 1000 code units passes. *)
Theorem validator_reports_first_failure (env : Env) (req : Request) :
  (validateSentimentInput env req
     = rejection "Text field is required and must be a string" env
   <-> forall text, body_text req = JString text -> text = ""%string) /\
  (validateSentimentInput env req = rejection "Text cannot be empty" env
   <-> exists text, body_text req = JString text /\ text <> ""%string /\
                    JS.trim text = ""%string) /\
  (validateSentimentInput env req
     = rejection "Text must be less than 1000 characters" env
   <-> exists text, body_text req = JString text /\
                    JS.trim text <> ""%string /\ 1000 < JS.strlen text) /\
  (forall text, body_text req = JString text ->
                JS.trim text <> ""%string -> JS.strlen text <= 1000 ->
                validateSentimentInput env req = Next).
Proof.
  unfold validateSentimentInput, rejection.
  destruct (body_text req) as [| |b|n|text|] eqn:Hb; simpl;
    rewrite ?orb_true_r.
  1-4,6: (split; [split; [by intros _ text' | reflexivity]|];
          split; [split; [discriminate | by intros (? & ? & _)]|];
          split; [split; [discriminate | by intros (? & ? & _)]|];
          by intros text').
  rewrite orb_false_r.
  destruct (String.eqb_spec text "") as [->|Hne].
  { split; [split; [by intros _ text' [= <-] | reflexivity]|].
    split; [split; [discriminate | by intros (? & [= <-] & ? & _)]|].
    split; [split; [discriminate | by intros (? & [= <-] & ? & _)]|].
    by intros text' [= <-]. }
  destruct (Z.eqb_spec (JS.strlen (JS.trim text)) 0) as [H0|H0].
  { apply strlen_zero in H0.
    split; [split; [discriminate | intros H; by specialize (H text eq_refl)]|].
    split; [split; [eauto | reflexivity]|].
    split; [split; [discriminate | by intros (? & [= <-] & ? & _)]|].
    by intros text' [= <-]. }
  assert (Htrim : JS.trim text <> ""%string).
  { intros H. apply H0. by apply strlen_zero. }
  destruct (Z.gtb_spec (JS.strlen text) 1000) as [Hl|Hl].
  { split; [split; [discriminate | intros H; by specialize (H text eq_refl)]|].
    split; [split; [discriminate | by intros (? & [= <-] & _ & ?)]|].
    split; [split; [intros _; exists text; repeat split; [done | lia]
                   | reflexivity]|].
    intros text' [= <-] _ ?. lia. }
  split; [split; [discriminate | intros H; by specialize (H text eq_refl)]|].
  split; [split; [discriminate | by intros (? & [= <-] & _ & ?)]|].
  split; [split; [discriminate | intros (? & [= <-] & _ & ?); lia]|].
  reflexivity.
Qed.

(** ** The error handler *)

Lemma prefix_spec sub : forall s,
  String.prefix sub s = true <-> exists b, s = (sub ++ b)%string.
Proof.
  induction sub as [|c sub IH]; intros s.
  - split; [intros _; by exists s | intros _; by destruct s].
  - destruct s as [|d s]; simpl.
    + split; [discriminate | intros [b Hb]; discriminate].
    + destruct (Ascii.ascii_dec c d) as [->|Hne].
      * rewrite IH. split; intros [b Hb]; exists b.
        -- subst s. reflexivity.
        -- change (String d s = String d (sub ++ b)%string) in Hb.
           congruence.
      * split; [discriminate|]. intros [b Hb].
        change (String d s = String c (sub ++ b)%string) in Hb. congruence.
Qed.

Lemma includes_spec sub s :
  JS.includes s sub = true <-> occursIn sub s.
Proof.
  unfold occursIn. induction s as [|c s IH].
  - cbn [JS.includes]. rewrite orb_false_r, prefix_spec. split.
    + intros [b Hb]. exists ""%string, b. exact Hb.
    + intros (a & b & Hab). destruct a; [by exists b|discriminate].
  - cbn [JS.includes]. rewrite orb_true_iff, prefix_spec, IH. split.
    + intros [[b Hb]|(a & b & Hab)].
      * exists ""%string, b. exact Hb.
      * exists (String c a), b. rewrite Hab. reflexivity.
    + intros (a & b & Hab). destruct a as [|c' a].
      * left. by exists b.
      * right. exists a, b.
        change (String c s = String c' (a ++ sub ++ b)%string) in Hab.
        congruence.
Qed.

Lemma includes_false sub s :
  JS.includes s sub = false <-> ~ occursIn sub s.
Proof.
  rewrite <- includes_spec. by destruct (JS.includes s sub).
Qed.

(** X15.  [errorHandler] classifies an error by what occurs in its
    message: "Validation" anywhere gives 400, also when "unavailable"
    occurs too; otherwise "unavailable" anywhere gives 503; in both cases
    the message is sent back as [error] and as [message].  Any other
    error gives the 500 response, which says nothing of the message. *)
Theorem errorHandler_classifies_by_message (err : Error) (env : Env) :
  (occursIn "Validation" (message err) ->
   errorHandler err env
     = {| statusCode := 400;
          body := errorBody (message err) (Text (message err)) env |}) /\
  (~ occursIn "Validation" (message err) ->
   occursIn "unavailable" (message err) ->
   errorHandler err env
     = {| statusCode := 503;
          body := errorBody (message err) (Text (message err)) env |}) /\
  (~ occursIn "Validation" (message err) ->
   ~ occursIn "unavailable" (message err) ->
   errorHandler err env = internalServerError env).
Proof.
  unfold errorHandler. split; [|split].
  - intros Hv. apply includes_spec in Hv. by rewrite Hv.
  - intros Hv Hu. apply includes_false in Hv. apply includes_spec in Hu.
    by rewrite Hv, Hu.
  - intros Hv Hu. apply includes_false in Hv. apply includes_false in Hu.
    by rewrite Hv, Hu.
Qed.

(** An error that names both words is a 400. *)
Lemma errorHandler_classifies_by_message_witness :
  statusCode
    (errorHandler (mkError "Validation service unavailable") (at_ 0)) = 400.
Proof.
  destruct (errorHandler_classifies_by_message
              (mkError "Validation service unavailable") (at_ 0))
    as [H _].
  rewrite H; [reflexivity|].
  exists ""%string, " service unavailable"%string. reflexivity.
Defined.


(** ** Starting the server *)



(** ** Preflight requests *)



(** ** Loads that settle late *)

Section LateLoads.
Import EventLoop.

Lemma settle_task k r s t : (settle k r s t).2 = settleTask k r t.
Proof.
  unfold settle, settleTask. destruct t as [k' text| |]; try reflexivity.
  destruct (Nat.eqb k k'); [|reflexivity].
  by destruct r.
Qed.

Lemma settle_state k r s t :
  (settle k r s t).1
    = if awaits k t then (initializeSentimentPipeline r s).1 else s.
Proof.
  unfold settle, awaits. destruct t as [k' text| |]; try reflexivity.
  destruct (Nat.eqb k k'); [|reflexivity].
  by destruct r.
Qed.

Lemma initialize_twice r s :
  (initializeSentimentPipeline r (initializeSentimentPipeline r s).1).1
    = (initializeSentimentPipeline r s).1.
Proof. by destruct r. Qed.

Lemma settleAll_tasks k r ts : forall s,
  (settleAll k r s ts).2 = settleTask k r <$> ts.
Proof.
  induction ts as [|t ts IH]; intros s; [reflexivity|].
  simpl. pose proof (settle_task k r s t) as Ht.
  destruct (settle k r s t) as [s1 t1]. specialize (IH s1).
  destruct (settleAll k r s1 ts) as [s2 ts2]. simpl in *.
  by rewrite Ht, IH.
Qed.

Lemma settleAll_state k r ts : forall s,
  (settleAll k r s ts).1
    = if existsb (awaits k) ts
      then (initializeSentimentPipeline r s).1 else s.
Proof.
  induction ts as [|t ts IH]; intros s; [reflexivity|].
  simpl. pose proof (settle_state k r s t) as Hs.
  destruct (settle k r s t) as [s1 t1]. specialize (IH s1).
  destruct (settleAll k r s1 ts) as [s2 ts2]. simpl in *.
  rewrite IH, Hs.
  destruct (awaits k t); simpl.
  - destruct (existsb (awaits k) ts); [apply initialize_twice | reflexivity].
  - reflexivity.
Qed.

Lemma existsb_awaits k text ts i :
  ts !! i = Some (AwaitingInit k text) -> existsb (awaits k) ts = true.
Proof.
  intros Hi. apply existsb_exists. exists (AwaitingInit k text).
  split; [|simpl; apply Nat.eqb_refl].
  apply list_elem_of_In. by apply list_elem_of_lookup_2 with i.
Qed.

Lemma awaiting_lookup texts k text :
  texts !! k = Some text ->
  awaiting 0 texts !! k = Some (AwaitingInit k text).
Proof.
  intros Hk. unfold awaiting. rewrite list_lookup_imap, Hk. reflexivity.
Qed.

Lemma step_settles w k r :
  step w (LoadSettles k r) =
    {| state := if existsb (awaits k) (tasks w)
                then (initializeSentimentPipeline r (state w)).1
                else state w;
       loads := loads w;
       tasks := settleTask k r <$> tasks w |}.
Proof.
  unfold step.
  pose proof (settleAll_tasks k r (tasks w) (state w)) as Ht.
  pose proof (settleAll_state k r (tasks w) (state w)) as Hs.
  destruct (settleAll k r (state w) (tasks w)) as [s' ts]. simpl in *.
  by rewrite Ht, Hs.
Qed.

(** X19.  Among the calls that arrived while the pipeline was null, a
    load that settles after another one has resolved still takes
    effect: if it resolves, its pipeline replaces the one that was
    set; if it rejects, its caller fails with "service unavailable"
    although the pipeline is set, which stays as it was.  The caller of
    the first load goes on to the analysis in both cases. *)
Theorem late_load_still_takes_effect (s : State) (texts : list string)
    (k1 k2 : nat) (t1 t2 : string) (p1 : Pipeline)
    (r2 : Settled Pipeline) :
  sentimentPipeline s = None ->
  texts !! k1 = Some t1 ->
  texts !! k2 = Some t2 ->
  k1 <> k2 ->
  let w := run (start s)
             ((Call <$> texts)
              ++ [LoadSettles k1 (Resolved p1); LoadSettles k2 r2]) in
  sentimentPipeline (state w)
    = Some (match r2 with Resolved p2 => p2 | Rejected _ => p1 end) /\
  tasks w !! k1 = Some (InitReturned t1) /\
  tasks w !! k2 = Some (afterLoad r2 t2).
Proof.
  intros Hnone H1 H2 Hne. cbv zeta. unfold run.
  rewrite fold_left_app. fold (run (start s) (Call <$> texts)).
  rewrite run_calls by done. unfold start. cbn [state loads tasks].
  rewrite app_nil_l. cbn [fold_left].
  rewrite !step_settles. cbn [state loads tasks].
  pose proof (awaiting_lookup texts k1 t1 H1) as Ha1.
  pose proof (awaiting_lookup texts k2 t2 H2) as Ha2.
  rewrite (existsb_awaits k1 t1 _ k1 Ha1).
  assert (Hk2 : (settleTask k1 (Resolved p1) <$> awaiting 0 texts) !! k2
                = Some (AwaitingInit k2 t2)).
  { rewrite list_lookup_fmap, Ha2. simpl.
    destruct (Nat.eqb_spec k1 k2); [done | reflexivity]. }
  rewrite (existsb_awaits k2 t2 _ k2 Hk2).
  split; [by destruct r2|]. split.
  - rewrite !list_lookup_fmap, Ha1. simpl. rewrite Nat.eqb_refl. simpl.
    reflexivity.
  - rewrite list_lookup_fmap, Hk2. simpl. by rewrite Nat.eqb_refl.
Qed.

End LateLoads.

(** Two early callers: the load of the first resolves, the load of the
    second rejects afterwards. *)
Lemma late_load_still_takes_effect_witness :
  let w := EventLoop.run (EventLoop.start initialState)
             [ EventLoop.Call "good"; EventLoop.Call "bad";
               EventLoop.LoadSettles 0 (Resolved alwaysPositive);
               EventLoop.LoadSettles 1 (Rejected "offline") ] in
  is_Some (sentimentPipeline (EventLoop.state w)) /\
  EventLoop.tasks w !! 1%nat
    = Some (EventLoop.Finished
              (Throw (mkError "Sentiment analysis service unavailable"))).
Proof.
  cbv zeta.
  destruct (late_load_still_takes_effect initialState
              ["good"; "bad"]%string 0 1 "good" "bad" alwaysPositive
              (Rejected "offline") eq_refl eq_refl eq_refl)
    as (Hp & _ & Ht); [lia|].
  split; [exists alwaysPositive; exact Hp | exact Ht].
Defined.

(** ** Trimming twice *)

Lemma append_cons c (a b : string) :
  (String c a ++ b)%string = String c (a ++ b)%string.
Proof. reflexivity. Qed.

Lemma string_app_nil_r (s : string) : (s ++ "")%string = s.
Proof.
  induction s as [|c s IH]; [reflexivity|]. by rewrite append_cons, IH.
Qed.

Lemma string_app_assoc (a b c : string) :
  ((a ++ b) ++ c)%string = (a ++ b ++ c)%string.
Proof.
  induction a as [|x a IH]; [reflexivity|]. by rewrite !append_cons, IH.
Qed.

Lemma rev_app_spec a : forall c,
  String.rev_app a c = (String.rev a ++ c)%string.
Proof.
  unfold String.rev. induction a as [|x a IH]; intros c; [reflexivity|].
  simpl. rewrite (IH (String x c)), (IH (String x "")).
  by rewrite string_app_assoc.
Qed.

Lemma string_rev_app (a b : string) :
  String.rev (a ++ b)%string = (String.rev b ++ String.rev a)%string.
Proof.
  induction a as [|x a IH].
  - by rewrite string_app_nil_r.
  - rewrite append_cons. unfold String.rev at 1 3. simpl.
    rewrite !rev_app_spec, IH. by rewrite string_app_assoc.
Qed.

Lemma string_rev_involutive s : String.rev (String.rev s) = s.
Proof.
  induction s as [|x s IH]; [reflexivity|].
  unfold String.rev at 2. simpl. rewrite rev_app_spec, string_rev_app, IH.
  reflexivity.
Qed.

Lemma trimStart_fixed s : trimmedStart s -> JS.trimStart s = s.
Proof. destruct s as [|c s]; [done|]. simpl. by intros ->. Qed.

Lemma trimStart_trimmed s : trimmedStart (JS.trimStart s).
Proof.
  induction s as [|c s IH]; [done|]. simpl.
  destruct (JS.isWhiteSpace c) eqn:Hc; [exact IH | exact Hc].
Qed.

Lemma trimStart_suffix s : exists pre, s = (pre ++ JS.trimStart s)%string.
Proof.
  induction s as [|c s [pre IH]]; [by exists ""%string|]. simpl.
  destruct (JS.isWhiteSpace c).
  - exists (String c pre). by rewrite append_cons, <- IH.
  - by exists ""%string.
Qed.

(** What is left of a reversed trimmed string, reversed back, is a
    trimmed string. *)
Lemma rev_trimStart_rev_trimmed u :
  trimmedStart u -> trimmedStart (String.rev (JS.trimStart (String.rev u))).
Proof.
  intros Hu.
  destruct (trimStart_suffix (String.rev u)) as [pre Hpre].
  set (v := JS.trimStart (String.rev u)) in *.
  assert (Hu' : u = (String.rev v ++ String.rev pre)%string).
  { by rewrite <- (string_rev_involutive u), Hpre, string_rev_app. }
  destruct (String.rev v) as [|d rest]; [done|].
  rewrite append_cons in Hu'. subst u. exact Hu.
Qed.

(** Trimming a trimmed string changes nothing. *)
Lemma trim_idempotent s : JS.trim (JS.trim s) = JS.trim s.
Proof.
  unfold JS.trim, JS.trimEnd.
  set (u := JS.trimStart s).
  set (v := JS.trimStart (String.rev u)).
  assert (Hrv : trimmedStart (String.rev v)).
  { apply rev_trimStart_rev_trimmed, trimStart_trimmed. }
  rewrite (trimStart_fixed _ Hrv), string_rev_involutive.
  rewrite (trimStart_fixed v); [reflexivity|]. apply trimStart_trimmed.
Qed.

(** ** What the ledger holds *)

Lemma rev_app_length s1 : forall s2,
  String.length (String.rev_app s1 s2)
    = (String.length s1 + String.length s2)%nat.
Proof.
  induction s1 as [|c s1 IH]; intros s2; simpl; [reflexivity|].
  rewrite IH. simpl. lia.
Qed.

Lemma trimStart_length s :
  (String.length (JS.trimStart s) <= String.length s)%nat.
Proof.
  induction s as [|c s IH]; simpl; [lia|].
  destruct (JS.isWhiteSpace c); simpl; lia.
Qed.

(** Trimming does not lengthen. *)
Lemma trim_length s : JS.strlen (JS.trim s) <= JS.strlen s.
Proof.
  unfold JS.strlen, JS.trim, JS.trimEnd, String.rev.
  rewrite rev_app_length. simpl.
  pose proof (trimStart_length (String.rev_app (JS.trimStart s) "")) as H1.
  rewrite rev_app_length in H1. simpl in H1.
  pose proof (trimStart_length s) as H2. lia.
Qed.

(** The entry a request creates. *)
Lemma app_created_entry config env req s e :
  body (app config env req s).2 = MoodBody e ->
  wellFormedEntry e.
Proof.
  unfold app.
  destruct (corsMiddleware_cases req) as [[_ ->]|[_ ->]]; [discriminate|].
  pose proof (rateLimitMiddleware_respond config env req s) as Hresp.
  destruct (rateLimitMiddleware config env req s) as [s1 [r|]];
    cbn [fst snd] in *.
  { destruct (Hresp r eq_refl) as (_ & e0 & ->). discriminate. }
  unfold routes.
  destruct (isGet (method req) && routeMatches "/api/health" (path req));
    [discriminate|].
  destruct (isPost (method req) && routeMatches "/api/sentiment" (path req)).
  { destruct (validateSentimentInput env req) as [r|] eqn:Hv.
    - apply validateSentimentInput_respond in Hv as (_ & msg & Hb).
      cbn [snd]. rewrite Hb. discriminate.
    - rewrite postSentiment_cases.
      by destruct (analyzeSentiment env (textOf req) s1) as [s2 [r|e0]]. }
  destruct (isPost (method req) && routeMatches "/api/moods" (path req)).
  { destruct (validateSentimentInput env req) as [r|] eqn:Hv.
    - apply validateSentimentInput_respond in Hv as (_ & msg & Hb).
      cbn [snd]. rewrite Hb. discriminate.
    - rewrite postMoods_cases.
      apply validateSentimentInput_next in Hv.
      pose proof (analyzeSentiment_cases env (textOf req) s1) as Hc.
      destruct (analyzeSentiment env (textOf req) s1) as [s2 [r|e0]];
        cbn [fst snd] in *; [|discriminate].
      intros [= <-].
      assert (Hr : sr_text r = JS.trim (textOf req)).
      { unfold classifyWith in Hc.
        destruct (sentimentPipeline s1) as [p|].
        - destruct (p (textOf req)) as [[|c cs]|?]; try discriminate.
          injection Hc as _ ->. reflexivity.
        - destruct (pipelineLoad env) as [p|?]; [|discriminate].
          destruct (p (textOf req)) as [[|c cs]|?]; try discriminate.
          injection Hc as _ ->. reflexivity. }
      unfold wellFormedEntry, entryFor. cbn. rewrite Hr.
      unfold textOf, invalidText in *.
      destruct (body_text req) as [| | | |text|]; try (by exfalso).
      pose proof (trim_length text) as Hlen.
      repeat split.
      + intros Hempty. apply Hv. left. by rewrite Hempty.
      + assert (~ JS.strlen text > 1000) by tauto. lia.
      + apply trim_idempotent. }
  destruct (isGet (method req) && routeMatches "/api/moods" (path req)).
  { destruct (getMoods_frame req s1) as (_ & _ & m & tt & l & o & ->).
    discriminate. }
  discriminate.
Qed.

Lemma sliceOf_sublist {A} (l : list A) a b :
  exists n k, JS.sliceOf l a b = take n (drop k l).
Proof. unfold JS.sliceOf. eauto. Qed.

(** What a listing holds. *)
Lemma app_page_body config env req s moods total limit offset :
  allocated s ->
  body (app config env req s).2 = PageBody moods total limit offset ->
  total = Z.of_nat (length (ledger s)) /\
  exists n k, moods = take n (drop k (rev (ledger s))).
Proof.
  intros Ha. unfold app.
  destruct (corsMiddleware_cases req) as [[_ ->]|[_ ->]]; [discriminate|].
  pose proof (rateLimitMiddleware_frame config env req s) as [Harr _].
  pose proof (rateLimitMiddleware_respond config env req s) as Hresp.
  destruct (rateLimitMiddleware config env req s) as [s1 [r|]];
    cbn [fst snd] in *.
  { destruct (Hresp r eq_refl) as (_ & e0 & ->). discriminate. }
  unfold routes.
  destruct (isGet (method req) && routeMatches "/api/health" (path req));
    [discriminate|].
  destruct (isPost (method req) && routeMatches "/api/sentiment" (path req)).
  { destruct (validateSentimentInput env req) as [r|] eqn:Hv.
    - apply validateSentimentInput_respond in Hv as (_ & msg & Hb).
      cbn [snd]. rewrite Hb. discriminate.
    - rewrite postSentiment_cases.
      by destruct (analyzeSentiment env (textOf req) s1) as [s2 [r|e0]]. }
  destruct (isPost (method req) && routeMatches "/api/moods" (path req)).
  { destruct (validateSentimentInput env req) as [r|] eqn:Hv.
    - apply validateSentimentInput_respond in Hv as (_ & msg & Hb).
      cbn [snd]. rewrite Hb. discriminate.
    - rewrite postMoods_cases.
      by destruct (analyzeSentiment env (textOf req) s1) as [s2 [r|e0]]. }
  destruct (isGet (method req) && routeMatches "/api/moods" (path req));
    [|discriminate].
  assert (Ha1 : allocated s1) by (unfold allocated; by rewrite Harr).
  assert (Hl1 : ledger s1 = ledger s)
    by (unfold ledger, deref; by rewrite Harr).
  destruct (getMoods_spec req s1 Ha1) as (_ & _ & _ & ->). cbn [body].
  rewrite Hl1. intros [= <- <- _ _]. split; [reflexivity|].
  apply sliceOf_sublist.
Qed.

Lemma Forall_lastN {A} (P : A -> Prop) n (l : list A) :
  Forall P l -> Forall P (lastN n l).
Proof. intros H. unfold lastN. by apply Forall_drop. Qed.

(** The invariant of the ledger, and what each response shows of it. *)
Lemma serve_wellFormed config reqs : forall s,
  allocated s -> (length (ledger s) <= cap)%nat ->
  Forall wellFormedEntry (ledger s) ->
  Forall wellFormedEntry (ledger (serve config reqs s).1) /\
  Forall pageWithinBounds (serve config reqs s).2 /\
  Forall createdWellFormed (serve config reqs s).2.
Proof.
  induction reqs as [|[env req] rest IH]; intros s Ha Hlen Hwf.
  - simpl. by repeat split.
  - simpl.
    destruct (app_ledger config env req s Ha Hlen) as [Ha1 Hl1].
    pose proof (app_created_entry config env req s) as Hce.
    pose proof (app_page_body config env req s) as Hpb.
    assert (Hwf1 : Forall wellFormedEntry (ledger (app config env req s).1)).
    { rewrite Hl1. apply Forall_lastN, Forall_app. split; [exact Hwf|].
      unfold created. simpl. unfold entryOf.
      destruct (body (app config env req s).2) eqn:Hb; simpl;
        try constructor; [|constructor].
      by apply Hce. }
    assert (Hpage : pageWithinBounds (app config env req s).2).
    { intros moods total limit offset Hb.
      destruct (Hpb moods total limit offset Ha Hb) as (-> & n & k & ->).
      rewrite cap_eq in Hlen. split; [lia|]. split.
      - rewrite length_take, length_drop, length_rev. lia.
      - apply Forall_take, Forall_drop, Forall_rev. exact Hwf. }
    assert (Hlen1 : (length (ledger (app config env req s).1) <= cap)%nat).
    { rewrite Hl1, length_lastN. lia. }
    destruct (app config env req s) as [s1 r]. cbn [fst snd] in *.
    destruct (IH s1 Ha1 Hlen1 Hwf1) as (Hfin & Hpages & Hcreated).
    destruct (serve config rest s1) as [s2 rs]. cbn [fst snd] in *.
    split; [exact Hfin|]. split; by constructor.
Qed.

(** X20.  Whatever requests the server handles from its start, every
    entry of the ledger, and every entry a 201 response carries, has a
    text that is not empty, has at most 1000 code units and has no white
    space at its ends. *)
Theorem stored_entries_are_well_formed (config : Config)
    (reqs : list (Env * Request)) :
  Forall wellFormedEntry (ledger (serve config reqs initialState).1) /\
  Forall createdWellFormed (serve config reqs initialState).2.
Proof.
  destruct (serve_wellFormed config reqs initialState) as (H1 & _ & H3).
  - exact allocated_initialState.
  - change (ledger initialState) with (@nil MoodEntry). simpl. lia.
  - constructor.
  - by split.
Qed.

(** X21.  Whatever requests the server handles from its start, every
    answer of [GET /api/moods] has a [total] between 0 and 1000 and a
    page of at most [total] entries, all of them well formed. *)
Theorem listings_stay_within_bounds (config : Config)
    (reqs : list (Env * Request)) :
  Forall pageWithinBounds (serve config reqs initialState).2.
Proof.
  destruct (serve_wellFormed config reqs initialState) as (_ & H2 & _).
  - exact allocated_initialState.
  - change (ledger initialState) with (@nil MoodEntry). simpl. lia.
  - constructor.
  - exact H2.
Qed.

(** X22.  The text that comes back from an analysis is the submitted
    text trimmed: it has no white space left at its ends (trimming it
    again changes nothing), it is not longer than what was submitted,
    and it passes the validator whenever the submitted text did. *)
Theorem returned_text_is_normalized (env : Env) (text : string)
    (s : State) (r : SentimentResponse) :
  (analyzeSentiment env text s).2 = Return r ->
  sr_text r = JS.trim text /\
  JS.trim (sr_text r) = sr_text r /\
  JS.strlen (sr_text r) <= JS.strlen text /\
  (~ invalidText (JString text) -> ~ invalidText (JString (sr_text r))).
Proof.
  intros Hr.
  assert (Ht : sr_text r = JS.trim text).
  { rewrite analyzeSentiment_cases in Hr. unfold classifyWith in Hr.
    destruct (sentimentPipeline s) as [p|].
    - cbn [snd] in Hr.
      destruct (p text) as [[|c cs]|?]; try discriminate.
      by injection Hr as <-.
    - destruct (pipelineLoad env) as [p|?]; [|discriminate].
      cbn [snd] in Hr.
      destruct (p text) as [[|c cs]|?]; try discriminate.
      by injection Hr as <-. }
  rewrite Ht. split; [reflexivity|]. split; [apply trim_idempotent|].
  split; [apply trim_length|].
  unfold invalidText. rewrite trim_idempotent.
  pose proof (trim_length text). intros Hv [H0|Hlong]; apply Hv.
  - by left.
  - right. lia.
Qed.

(** A text with white space around it. *)
Lemma returned_text_is_normalized_witness :
  exists r, (analyzeSentiment (ready_ 0) "  good day  "
               (withPipeline alwaysPositive)).2 = Return r /\
            sr_text r = "good day"%string /\
            JS.trim (sr_text r) = sr_text r.
Proof.
  eexists. split; [reflexivity|].
  destruct (returned_text_is_normalized (ready_ 0) "  good day  "%string
              (withPipeline alwaysPositive) _ eq_refl) as (H1 & H2 & _).
  exact (conj H1 H2).
Defined.

(** * Properties of the mobile client *)

Section MobileClient.
Import Mobile.

(** X23.  Toggling an emoji flips whether it is selected and leaves
    the other emojis as they were; a selection without repetition
    stays so; selecting and deselecting an emoji gives back the
    selection, while deselecting and selecting again moves it to the
    end. *)
Theorem toggling_flips_one_emoji (emoji : string) (prev : list string) :
  (emoji ∈ handleEmojiToggle emoji prev <-> emoji ∉ prev) /\
  (forall other, other <> emoji ->
     (other ∈ handleEmojiToggle emoji prev <-> other ∈ prev)) /\
  (NoDup prev -> NoDup (handleEmojiToggle emoji prev)) /\
  (emoji ∉ prev ->
   handleEmojiToggle emoji (handleEmojiToggle emoji prev) = prev) /\
  (emoji ∈ prev ->
   handleEmojiToggle emoji (handleEmojiToggle emoji prev)
     = filter (fun e => e <> emoji) prev ++ [emoji]).
Proof.
  unfold handleEmojiToggle at 1 2 3.
  destruct (decide (emoji ∈ prev)) as [Hin|Hnin].
  - rewrite !bool_decide_eq_true_2 by done.
    split; [|split; [|split; [|split]]].
    + rewrite list_elem_of_filter. split; [by intros [? _] | done].
    + intros other Hne. rewrite list_elem_of_filter. tauto.
    + intros Hnd. by apply NoDup_filter.
    + done.
    + intros _. unfold handleEmojiToggle.
      rewrite (bool_decide_eq_true_2 (emoji ∈ prev)) by done.
      rewrite bool_decide_eq_false_2; [reflexivity|].
      rewrite list_elem_of_filter. by intros [? _].
  - rewrite !bool_decide_eq_false_2 by done.
    split; [|split; [|split; [|split]]].
    + split; [done|]. intros _. apply elem_of_app. right.
      by apply list_elem_of_singleton.
    + intros other Hne. rewrite elem_of_app, list_elem_of_singleton. tauto.
    + intros Hnd. apply NoDup_app. split; [done|]. split.
      * intros x Hx Hx'. apply list_elem_of_singleton in Hx'. by subst.
      * apply NoDup_singleton.
    + intros _. unfold handleEmojiToggle.
      rewrite (bool_decide_eq_false_2 (emoji ∈ prev)) by done.
      rewrite bool_decide_eq_true_2.
      2:{ apply elem_of_app. right. by apply list_elem_of_singleton. }
      rewrite filter_app.
      assert (Hf : filter (fun e => e <> emoji) prev = prev).
      { clear -Hnin. induction prev as [|x l IH]; [reflexivity|].
        rewrite not_elem_of_cons in Hnin. destruct Hnin as [Hx Hl].
        rewrite filter_cons_True by done. by rewrite IH. }
      rewrite Hf. rewrite filter_cons_False by (by intros H; apply H).
      rewrite filter_nil. apply app_nil_r.
    + done.
Qed.

Lemma validateMoodText_accepts text :
  validateMoodText text = None <-> 3 <= JS.strlen (JS.trim text) <= 500.
Proof.
  unfold validateMoodText.
  destruct (String.eqb_spec (JS.trim text) "") as [He|Hne].
  { rewrite He. split; [discriminate|].
    unfold JS.strlen. simpl. lia. }
  destruct (Z.ltb_spec (JS.strlen (JS.trim text)) 3);
    [split; [discriminate | lia]|].
  destruct (Z.gtb_spec (JS.strlen (JS.trim text)) 500);
    [split; [discriminate | lia]|].
  split; [lia | reflexivity].
Qed.

Lemma validateName_accepts name :
  validateName name = None <-> 2 <= JS.strlen (JS.trim name) <= 50.
Proof.
  unfold validateName.
  destruct (String.eqb_spec (JS.trim name) "") as [He|Hne].
  { rewrite He. split; [discriminate|].
    unfold JS.strlen. simpl. lia. }
  destruct (Z.ltb_spec (JS.strlen (JS.trim name)) 2);
    [split; [discriminate | lia]|].
  destruct (Z.gtb_spec (JS.strlen (JS.trim name)) 50);
    [split; [discriminate | lia]|].
  split; [lia | reflexivity].
Qed.

(** X24.  A mood text that the mobile validator accepts has from 3 to
    500 code units once trimmed, and trimmed, as the screen keeps it,
    it is a text that the validator of the server lets through. *)
Theorem accepted_mood_text_passes_the_server (env : Env) (text : string) :
  validateMoodText text = None ->
  3 <= JS.strlen (JS.trim text) <= 500 /\
  validateSentimentInput env (moodRequest (JS.trim text)) = Next.
Proof.
  intros Hok. apply validateMoodText_accepts in Hok.
  split; [exact Hok|].
  apply validateSentimentInput_next. cbn [body_text moodRequest].
  unfold invalidText. rewrite trim_idempotent. lia.
Qed.

(** X25.  The two validators of the mobile client look at the trimmed
    input only: white space around a name or a mood text changes
    neither the verdict nor the message; a name passes exactly with 2
    to 50 code units once trimmed, a mood text with 3 to 500. *)
Theorem mobile_validators_ignore_surrounding_space (input : string) :
  validateName (JS.trim input) = validateName input /\
  validateMoodText (JS.trim input) = validateMoodText input /\
  (validateName input = None <-> 2 <= JS.strlen (JS.trim input) <= 50) /\
  (validateMoodText input = None
     <-> 3 <= JS.strlen (JS.trim input) <= 500).
Proof.
  split; [|split; [|split]].
  - unfold validateName. by rewrite trim_idempotent.
  - unfold validateMoodText. by rewrite trim_idempotent.
  - apply validateName_accepts.
  - apply validateMoodText_accepts.
Qed.


End MobileClient.

(** Selecting a third emoji, then deselecting it. *)
Lemma toggling_flips_one_emoji_witness :
  Mobile.handleEmojiToggle "joy"
    (Mobile.handleEmojiToggle "joy" ["calm"; "sad"]%string)
    = ["calm"; "sad"]%string.
Proof.
  destruct (toggling_flips_one_emoji "joy" ["calm"; "sad"]%string)
    as (_ & _ & _ & H & _).
  apply H. rewrite !not_elem_of_cons.
  repeat split; try discriminate. apply not_elem_of_nil.
Defined.

(** A mood with a long tail of spaces: the mobile validator accepts it,
    the server accepts it trimmed and rejects it as typed. *)
Lemma accepted_mood_text_passes_the_server_witness :
  let typed := ("tired" ++ spaces 1000)%string in
  Mobile.validateMoodText typed = None /\
  validateSentimentInput (at_ 0) (moodRequest (JS.trim typed)) = Next /\
  validateSentimentInput (at_ 0) (moodRequest typed)
    = rejection "Text must be less than 1000 characters" (at_ 0).
Proof.
  cbv zeta. split; [vm_compute; reflexivity|]. split.
  - apply (accepted_mood_text_passes_the_server (at_ 0)).
    vm_compute. reflexivity.
  - vm_compute. reflexivity.
Defined.

